(** * ECS task update handlers: a shallow embedding

    The repository holds two Lambda handlers, [ecs-task-update] (the
    service-based variant) and [ecs-task-container-update] (the task-family
    variant).  Each one validates an event into a [DeployParams] object,
    then drives a chain of promises over the ECS client.

    The embedding has three layers:
    - [JS]: the JavaScript values and operators the handlers use on them
      (truthiness, [||], [===], string [+], property lookup);
    - [ECS]: the four ECS operations, promises as trees of calls, and the
      execution of such a tree against an environment;
    - [EcsTaskUpdate] and [EcsTaskContainerUpdate]: the two source files,
      function by function. *)

From Stdlib Require Import DecimalString.
From stdpp Require Import gmap strings list.

Open Scope string_scope.

(** ** JavaScript values *)

Module JS.

(** JavaScript's numbers, as far as the handlers use them.  The values are
    IEEE doubles and [Number::toString] prints the shortest decimal that
    reads back as the same double (["1e+21"] for ten to the 21, ["0.5"] for
    a half); neither is defined here.  The carrier and the three operations
    are parameters, and every property below is proved for all of them,
    so for JavaScript's own. *)
Class Number : Type := {
  number : Type;
  number_truthy : number → bool;            (* ToBoolean: not 0, -0 or NaN *)
  number_eqb : number → number → bool;      (* [===] on two numbers *)
  number_to_string : number → string        (* [Number::toString] *)
}.

(** Values as [JSON.parse] builds them, plus [undefined], which a lookup of
    an absent key yields. *)
#[warnings="-register-all"]
Inductive value {num : Number} : Type :=
  | VUndef
  | VNull
  | VBool (b : bool)
  | VNum (n : number)
  | VStr (s : string)
  | VArr (l : list value)
  | VObj (o : gmap string value).

(** A plain object: own properties by name. *)
Abbreviation obj := (gmap string value).

(** [o[k]] and [o.k] on a plain object, for a key that no built-in prototype
    defines (every key the handlers read is such a key). *)
Definition get {num : Number} (o : obj) (k : string) : value := default VUndef (o !! k).

(** ToBoolean: [undefined], [null], [false], the empty string and the
    numbers that [number_truthy] rejects are falsy. *)
Definition truthy {num : Number} (v : value) : bool :=
  match v with
  | VUndef | VNull => false
  | VBool b => b
  | VNum n => number_truthy n
  | VStr s => negb (String.eqb s "")
  | VArr _ | VObj _ => true
  end.

(** [a || b]. *)
Definition or_else {num : Number} (a b : value) : value := if truthy a then a else b.

(** [a === b].  Primitives compare by value, numbers as [number_eqb] says;
    two objects or arrays compare by reference, and every comparison in the
    handlers is between a value from the event and a value from an ECS
    response, which never share a reference. *)
Definition strict_eq {num : Number} (a b : value) : bool :=
  match a, b with
  | VUndef, VUndef => true
  | VNull, VNull => true
  | VBool x, VBool y => Bool.eqb x y
  | VNum x, VNum y => number_eqb x y
  | VStr x, VStr y => String.eqb x y
  | _, _ => false
  end.

(** What a JavaScript [throw] carries in these programs. *)
Inductive error {num : Number} : Type :=
  | Thrown (v : value)       (* [throw v] of the program itself *)
  | TypeError                (* raised by the runtime *)
  | ApiError (e : obj).      (* rejection of an ECS request *)

(** A computation that returns or throws. *)
Inductive result {num : Number} (A : Type) : Type :=
  | Ok (a : A)
  | Throw (e : error).
Arguments Ok {num A} a.
Arguments Throw {num A} e.

#[global] Instance result_ret {num : Number} : MRet result := λ A a, Ok a.
#[global] Instance result_bind {num : Number} : MBind result := λ A B f m,
  match m with
  | Ok a => f a
  | Throw e => Throw e
  end.
#[global] Instance result_fmap {num : Number} : FMap result := λ A B f m,
  match m with
  | Ok a => Ok (f a)
  | Throw e => Throw e
  end.

(** ToString after ToPrimitive.  A number is printed by
    [number_to_string].  An array is joined with commas, [null] and
    [undefined] elements giving the empty string.  A plain object gives
    ["[object Object]"], unless it has an own property [toString]: that
    value is not callable, the inherited [valueOf] returns the object
    itself, and the conversion throws a TypeError. *)
Fixpoint to_string {num : Number} (v : value) : result string :=
  match v with
  | VUndef => Ok "undefined"
  | VNull => Ok "null"
  | VBool true => Ok "true"
  | VBool false => Ok "false"
  | VNum n => Ok (number_to_string n)
  | VStr s => Ok s
  | VArr l =>
      let element x :=
        match x with
        | VUndef | VNull => Ok ""
        | _ => to_string x
        end in
      (fix join (l : list value) : result string :=
         match l with
         | [] => Ok ""
         | [x] => element x
         | x :: l' => sx ← element x; sl ← join l'; Ok (sx +:+ "," +:+ sl)
         end) l
  | VObj o =>
      match o !! "toString" with
      | Some _ => Throw TypeError
      | None => Ok "[object Object]"
      end
  end.

(** [a + b] where one operand is a string: both are converted and
    concatenated.  The handlers use [+] only next to a string literal. *)
Definition add {num : Number} (a b : value) : result value :=
  sa ← to_string a; sb ← to_string b; Ok (VStr (sa +:+ sb)).

(** A number system for the examples: the integers of magnitude up to two
    to the 53.  JavaScript represents each of them exactly, treats all but
    0 as truthy and prints them in plain decimal. *)
Record safe_integer : Type := SafeInteger {
  safe_value : Z;
  safe_range : Is_true (Z.abs safe_value <=? 2 ^ 53)%Z
}.

#[global] Instance safe_integers : Number := {|
  number := safe_integer;
  number_truthy n := negb (safe_value n =? 0)%Z;
  number_eqb x y := (safe_value x =? safe_value y)%Z;
  number_to_string n := NilZero.string_of_int (Z.to_int (safe_value n))
|}.

(** The safe integer [n], as a number of this system. *)
Definition safe (n : Z) (range : Is_true (Z.abs n <=? 2 ^ 53)%Z)
  : @number safe_integers := SafeInteger n range.

End JS.

(** ** The ECS client and promises *)

Module ECS.
Import JS.

(** The operations of [AWS.ECS] that the handlers call. *)
Inductive op : Type :=
  | DescribeServices
  | DescribeTaskDefinition
  | RegisterTaskDefinition
  | UpdateService.

#[global] Instance op_eq_dec : EqDecision op.
Proof. solve_decision. Defined.

(** Response payloads.  The SDK builds them from the ECS service model, so
    a list member is an array of structures and a structure is a plain
    object; the handlers rely on these shapes. *)

(** A task definition: [containerDefinitions] is its list of container
    structures, [fields] holds every other member ([family], [volumes],
    [taskRoleArn], [taskDefinitionArn], [revision], ...). *)
Record TaskDefinition {num : Number} : Type := {
  fields : obj;
  containerDefinitions : list obj
}.

(** Payload of [describeServices]. *)
Record ServicesResponse {num : Number} : Type := { services : list obj }.

(** Payload of [describeTaskDefinition] and of [registerTaskDefinition]. *)
Record TaskDefinitionResponse {num : Number} : Type := { taskDefinition : TaskDefinition }.

Definition data {num : Number} (o : op) : Type :=
  match o with
  | DescribeServices => ServicesResponse
  | DescribeTaskDefinition => TaskDefinitionResponse
  | RegisterTaskDefinition => TaskDefinitionResponse
  | UpdateService => obj
  end.

(** A program over the client: it ends with a value, or sends a request and
    goes on with the outcome, which is the payload or a rejection. *)
Inductive ecs {num : Number} (A : Type) : Type :=
  | Ret (a : A)
  | Call (o : op) (params : obj) (k : result (data o) → ecs A).
Arguments Ret {num A} a.
Arguments Call {num A} o params k.

Fixpoint ecs_bind {num : Number} {A B} (m : ecs A) (f : A → ecs B) : ecs B :=
  match m with
  | Ret a => f a
  | Call o params k => Call o params (λ r, ecs_bind (k r) f)
  end.

(** A promise settles as fulfilled with a value or rejected with an error. *)
Definition promise {num : Number} (A : Type) : Type := ecs (result A).

(** [ecs.<op>(params).promise()]. *)
Definition request {num : Number} (o : op) (params : obj) : promise (data o) :=
  Call o params Ret.

(** [promise.then(f)]: [f] runs on the fulfilled value and may itself throw
    or return a promise; a rejection passes through. *)
Definition then_ {num : Number} {A B} (m : promise A) (f : A → promise B) : promise B :=
  ecs_bind m (λ r,
    match r with
    | Ok a => f a
    | Throw e => Ret (Throw e)
    end).

(** What the Lambda callback is called with: [callback(e)] or
    [callback(null, d)]. *)
Inductive callback {num : Number} : Type :=
  | CbError (e : error)
  | CbSuccess (o : op) (d : data o).

(** [promise.then(callback.bind(null, null)).catch(callback)]. *)
Definition settle {num : Number} {o} (m : promise (data o)) : ecs callback :=
  ecs_bind m (λ r,
    match r with
    | Ok d => Ret (CbSuccess o d)
    | Throw e => Ret (CbError e)
    end).

(** The requests sent so far, oldest first. *)
Definition history {num : Number} : Type := list (op * obj).

(** The service as the handler sees it: the outcome of each request, which
    may depend on everything sent before. *)
Definition environment {num : Number} : Type := history → ∀ o : op, obj → result (data o).

(** Runs a program from history [h]; returns the final history and the
    program's value. *)
Fixpoint run {num : Number} {A} (env : environment) (h : history) (m : ecs A) : history * A :=
  match m with
  | Ret a => (h, a)
  | Call o params k => run env (h ++ [(o, params)])%list (k (env h o params))
  end.

End ECS.

(** ** [ecs-task-update]: the service-based handler *)

Module EcsTaskUpdate.
Import JS ECS.

Definition requiredParams : list string :=
  ["service"; "taskDefinition"; "containerName"; "imageBase"].

Record DeployParams {num : Number} : Type := {
  cluster : value;
  service : value;
  taskDefinition : value;
  containerName : value;
  imageBase : value;
  imageTag : value;
  image : value
}.

(** The violations the constructor collects:
    [requiredParams.map(it => event[it] ? null : it + " is required.")
       .filter(it => it)]. *)
Definition errors {num : Number} (event : obj) : list value :=
  List.filter truthy
    (map (λ it, if truthy (get event it) then VNull
                else VStr (it +:+ " is required."))
       requiredParams).

(** [new DeployParams(event)]. *)
Definition new_DeployParams {num : Number} (event : obj) : result DeployParams :=
  let errors := errors event in
  if (0 <? length errors)%nat then Throw (Thrown (VArr errors)) else
  let cluster := or_else (get event "cluster") (VStr "default") in
  let service := get event "service" in
  let taskDefinition := get event "taskDefinition" in
  let containerName := get event "containerName" in
  let imageBase := get event "imageBase" in
  let imageTag := or_else (get event "imageTag") (VStr "latest") in
  base ← add imageBase (VStr ":");
  image ← add base imageTag;
  Ok {| cluster := cluster; service := service;
        taskDefinition := taskDefinition; containerName := containerName;
        imageBase := imageBase; imageTag := imageTag; image := image |}.

Definition describeService {num : Number} (p : DeployParams) : promise (data DescribeServices) :=
  request DescribeServices
    {[ "cluster" := cluster p; "services" := VArr [service p] ]}.

(** [result.services[0]] is [undefined] on an empty list, and reading
    [.taskDefinition] of it throws before any request is made. *)
Definition describeTask {num : Number} (p : DeployParams) (result : ServicesResponse)
  : promise (data DescribeTaskDefinition) :=
  match services result !! 0%nat with
  | None => Ret (Throw TypeError)
  | Some first =>
      request DescribeTaskDefinition
        {[ "taskDefinition" := get first "taskDefinition" ]}
  end.

(** The source assigns [container.image] in place and returns the same
    container.  The containers of a payload are distinct objects and the
    payload is not read again after the rewrite, so the container is
    modelled by its value. *)
Definition containerTransformer {num : Number} (toMatch newImage : value) : obj → obj :=
  λ container,
    if strict_eq (get container "name") toMatch
    then <["image" := newImage]> container
    else container.

Definition updateTask {num : Number} (p : DeployParams) (result : TaskDefinitionResponse)
  : promise (data RegisterTaskDefinition) :=
  let task := ECS.taskDefinition result in
  request RegisterTaskDefinition
    {[ "family" := get (fields task) "family";
       "volumes" := get (fields task) "volumes";
       "taskRoleArn" := get (fields task) "taskRoleArn";
       "containerDefinitions" :=
         VArr (VObj <$> map (containerTransformer (containerName p) (image p))
                            (containerDefinitions task)) ]}.

Definition updateService {num : Number} (p : DeployParams) (result : TaskDefinitionResponse)
  : promise (data UpdateService) :=
  let task := ECS.taskDefinition result in
  request UpdateService
    {[ "cluster" := cluster p;
       "service" := service p;
       "taskDefinition" := get (fields task) "taskDefinitionArn" ]}.

(** [promised(callback, promise)]; the result is the call of [callback]. *)
Definition promised {num : Number} {o} (promise : promise (data o)) : ecs callback :=
  settle promise.

(** [exports.handler(event, context, callback)].  The [console.log] calls
    write to the log only and are left out. *)
Definition handler {num : Number} (event : obj) : ecs callback :=
  match new_DeployParams event with
  | Throw e => Ret (CbError e)
  | Ok p =>
      promised
        (then_ (then_ (then_ (describeService p) (describeTask p))
                  (updateTask p))
           (updateService p))
  end.

End EcsTaskUpdate.

(** ** [ecs-task-container-update]: the task-family handler *)

Module EcsTaskContainerUpdate.
Import JS ECS.

Definition requiredParams : list string :=
  ["taskFamily"; "containerName"; "imageBase"].

Record DeployParams {num : Number} : Type := {
  imageBase : value;
  imageTag : value;
  image : value;
  taskFamily : value;
  containerName : value;
  cluster : value;
  service : value
}.

Definition errors {num : Number} (event : obj) : list value :=
  List.filter truthy
    (map (λ it, if truthy (get event it) then VNull
                else VStr (it +:+ " is required."))
       requiredParams).

(** [new DeployParams(event)]; the statements run in the source's order, so
    the image is computed before the cluster and service rule is checked. *)
Definition new_DeployParams {num : Number} (event : obj) : result DeployParams :=
  let errors := errors event in
  if (0 <? length errors)%nat then Throw (Thrown (VArr errors)) else
  let imageBase := get event "imageBase" in
  let imageTag := or_else (get event "imageTag") (VStr "latest") in
  base ← add imageBase (VStr ":");
  image ← add base imageTag;
  let taskFamily := get event "taskFamily" in
  let containerName := get event "containerName" in
  if truthy (get event "cluster") && negb (truthy (get event "service"))
  then Throw (Thrown (VArr [VStr "service is required when cluster is specified"]))
  else
  let cluster := or_else (get event "cluster") (VStr "default") in
  let service := get event "service" in
  Ok {| imageBase := imageBase; imageTag := imageTag; image := image;
        taskFamily := taskFamily; containerName := containerName;
        cluster := cluster; service := service |}.

Definition describeTask {num : Number} (p : DeployParams) : promise (data DescribeTaskDefinition) :=
  request DescribeTaskDefinition {[ "taskDefinition" := taskFamily p ]}.

Definition containerTransformer {num : Number} (toMatch newImage : value) : obj → obj :=
  λ container,
    if strict_eq (get container "name") toMatch
    then <["image" := newImage]> container
    else container.

Definition updateTask {num : Number} (p : DeployParams) (result : TaskDefinitionResponse)
  : promise (data RegisterTaskDefinition) :=
  let task := ECS.taskDefinition result in
  request RegisterTaskDefinition
    {[ "family" := get (fields task) "family";
       "volumes" := get (fields task) "volumes";
       "taskRoleArn" := get (fields task) "taskRoleArn";
       "containerDefinitions" :=
         VArr (VObj <$> map (containerTransformer (containerName p) (image p))
                            (containerDefinitions task)) ]}.

Definition updateService {num : Number} (p : DeployParams) (result : TaskDefinitionResponse)
  : promise (data UpdateService) :=
  let task := ECS.taskDefinition result in
  request UpdateService
    {[ "cluster" := cluster p;
       "service" := service p;
       "taskDefinition" := get (fields task) "taskDefinitionArn" ]}.

(** The promise [buildPromise] returns settles with the payload of one of
    two operations, according to [p.service]. *)
Definition buildPromise {num : Number} (p : DeployParams) : { o : op & promise (data o) } :=
  let taskUpdate := then_ (describeTask p) (updateTask p) in
  if negb (truthy (service p))
  then existT RegisterTaskDefinition taskUpdate
  else existT UpdateService (then_ taskUpdate (updateService p)).

(** [exports.handler(event, context, callback)], without the log line. *)
Definition handler {num : Number} (event : obj) : ecs callback :=
  match new_DeployParams event with
  | Throw e => Ret (CbError e)
  | Ok p => let (o, promise) := buildPromise p in settle promise
  end.

End EcsTaskContainerUpdate.

(** ** Vocabulary of the properties *)

Import JS ECS.

(** The test of [containerTransformer]: [container.name === toMatch]. *)
Definition named {num : Number} (toMatch : value) (container : obj) : bool :=
  strict_eq (get container "name") toMatch.

(** The required fields that an event lacks: absent, or present with a
    falsy value. *)
Definition missing {num : Number} (required : list string) (event : obj) : list string :=
  List.filter (λ field, negb (truthy (get event field))) required.

(** The message for a missing field. *)
Definition is_required {num : Number} (field : string) : value :=
  VStr (field +:+ " is required.").

(** The operations of a history, in the order they were called. *)
Definition ops {num : Number} (h : history) : list op := map fst h.

(** The events of the two end-to-end scenarios. *)
Definition service_event {num : Number} : obj :=
  {[ "service" := VStr "svc"; "taskDefinition" := VStr "app:3";
     "containerName" := VStr "web"; "imageBase" := VStr "repo/app" ]}.

Definition family_event {num : Number} : obj :=
  {[ "taskFamily" := VStr "app"; "containerName" := VStr "web";
     "imageBase" := VStr "repo/app"; "imageTag" := VStr "v2" ]}.

(** An environment for the scenarios: one service running revision 3 of
    family [app], whose task has the containers [db] and [web]. *)
Definition scenario_env : environment := λ h o params,
  match o with
  | DescribeServices =>
      Ok {| services := [ {[ "serviceName" := VStr "svc";
                             "taskDefinition" := VStr "arn:task/app:3" ]} ] |}
  | DescribeTaskDefinition =>
      Ok {| taskDefinition :=
              {| fields := {[ "family" := VStr "app"; "revision" := VNum (safe 3 I);
                              "volumes" := VArr [];
                              "taskDefinitionArn" := VStr "arn:task/app:3" ]};
                 containerDefinitions :=
                   [ {[ "name" := VStr "db"; "image" := VStr "postgres:9" ]};
                     {[ "name" := VStr "web"; "image" := VStr "repo/app:v1" ]} ] |} |}
  | RegisterTaskDefinition =>
      Ok {| taskDefinition :=
              {| fields := {[ "family" := VStr "app"; "revision" := VNum (safe 4 I);
                              "taskDefinitionArn" := VStr "arn:task/app:4" ]};
                 containerDefinitions := [] |} |}
  | UpdateService => Ok {[ "service" := VObj {[ "serviceName" := VStr "svc" ]} ]}
  end.

(** The same service without any match for the name asked for. *)
Definition no_service_env : environment := λ h o params,
  match o as o' return result (data o') with
  | DescribeServices => Ok {| services := [] |}
  | o' => scenario_env h o' params
  end.

(** The four fields of a register-task-definition request. *)
Definition register_fields : gset string :=
  {[ "family"; "volumes"; "taskRoleArn"; "containerDefinitions" ]}.

(** [params] has exactly the four fields: [family], [volumes] and
    [taskRoleArn] read from [task], and the container list [containers]. *)
Definition registers {num : Number} (task : TaskDefinition) (containers : list obj)
    (params : obj) : Prop :=
  dom params = register_fields ∧
  params !! "family" = Some (get (fields task) "family") ∧
  params !! "volumes" = Some (get (fields task) "volumes") ∧
  params !! "taskRoleArn" = Some (get (fields task) "taskRoleArn") ∧
  params !! "containerDefinitions" = Some (VArr (VObj <$> containers)) ∧
  ∀ key, key ∉ register_fields → params !! key = None.

(** A value that is neither an array nor an object. *)
Definition primitive {num : Number} (v : value) : bool :=
  match v with
  | VArr _ | VObj _ => false
  | _ => true
  end.

(** The value converts to a string without a TypeError. *)
Definition convertible {num : Number} (v : value) : bool :=
  match to_string v with
  | Ok _ => true
  | Throw _ => false
  end.

(** The event keys that each constructor reads. *)
Definition service_keys : list string :=
  ["service"; "taskDefinition"; "containerName"; "imageBase"; "cluster"; "imageTag"].

Definition family_keys : list string :=
  ["taskFamily"; "containerName"; "imageBase"; "imageTag"; "cluster"; "service"].

(** What the task-family constructor throws for a cluster without a
    service. *)
Definition dependency_error {num : Number} : error :=
  Thrown (VArr [VStr "service is required when cluster is specified"]).

(** The container after the rewrite with target [toMatch]. *)
Definition rewritten {num : Number} (toMatch newImage : value) (container : obj) : obj :=
  if named toMatch container then <["image" := newImage]> container
  else container.

(** * Properties *)

(** ** The model on small inputs *)

Example to_string_array :
  to_string (VArr [VNum (safe 1 I); VNull; VArr [VStr "a"; VBool true]; VNum (safe (-7) I); VObj ∅])
  = Ok "1,,a,true,-7,[object Object]".
Proof. reflexivity. Qed.

Example to_string_shadowed :
  to_string (VObj {[ "toString" := VStr "x" ]}) = Throw TypeError.
Proof. reflexivity. Qed.

Example service_params :
  EcsTaskUpdate.new_DeployParams service_event
  = Ok {| EcsTaskUpdate.cluster := VStr "default";
          EcsTaskUpdate.service := VStr "svc";
          EcsTaskUpdate.taskDefinition := VStr "app:3";
          EcsTaskUpdate.containerName := VStr "web";
          EcsTaskUpdate.imageBase := VStr "repo/app";
          EcsTaskUpdate.imageTag := VStr "latest";
          EcsTaskUpdate.image := VStr "repo/app:latest" |}.
Proof. reflexivity. Qed.

Example family_params_numeric_tag :
  EcsTaskContainerUpdate.image
  <$> EcsTaskContainerUpdate.new_DeployParams (<["imageTag" := VNum (safe 42 I)]> family_event)
  = Ok (VStr "repo/app:42").
Proof. reflexivity. Qed.

Example family_params_unconvertible :
  EcsTaskContainerUpdate.new_DeployParams
    (<["imageBase" := VObj {[ "toString" := VNull ]}]> family_event)
  = Throw TypeError.
Proof. reflexivity. Qed.

Example family_run_rejected :
  run (λ h o params, Throw (ApiError {[ "code" := VStr "ClientException" ]})) []
    (EcsTaskContainerUpdate.handler family_event)
  = ([(DescribeTaskDefinition, {[ "taskDefinition" := VStr "app" ]})],
     CbError (ApiError {[ "code" := VStr "ClientException" ]})).
Proof. reflexivity. Qed.

(** ** The container rewrite *)

Section container_rewrite.
Context {num : Number}.
Variables toMatch newImage : value.

Let hit := named toMatch.
Let rewrite1 := EcsTaskUpdate.containerTransformer toMatch newImage.

Lemma transformer_hit c :
  hit c = true → rewrite1 c = <["image" := newImage]> c.
Proof.
  unfold rewrite1, EcsTaskUpdate.containerTransformer, hit, named.
  by intros ->.
Qed.

Lemma transformer_miss c : hit c = false → rewrite1 c = c.
Proof.
  unfold rewrite1, EcsTaskUpdate.containerTransformer, hit, named.
  by intros ->.
Qed.

Lemma rewrite_without_match (l : list obj) :
  List.filter hit l = [] → map rewrite1 l = l.
Proof.
  induction l as [|c l IH]; simpl; [done|].
  destruct (hit c) eqn:Hc; [done|].
  intros Hl. by rewrite transformer_miss, IH.
Qed.

Lemma rewrite_one_match (l : list obj) :
  length (List.filter hit l) = 1 →
  ∃ i c, l !! i = Some c ∧ hit c = true ∧
         map rewrite1 l = <[i := <["image" := newImage]> c]> l.
Proof.
  induction l as [|c l IH]; simpl; [done|].
  destruct (hit c) eqn:Hc; simpl.
  - intros Hlen. exists 0, c. split_and!; [done..|].
    rewrite transformer_hit by done. simpl. f_equal.
    apply rewrite_without_match.
    by destruct (List.filter hit l).
  - intros Hlen. destruct (IH Hlen) as (i & c' & Hi & Hc' & Heq).
    exists (S i), c'. split_and!; [done..|].
    simpl. by rewrite transformer_miss, Heq.
Qed.
End container_rewrite.

Lemma transformers_agree {num : Number} :
  EcsTaskContainerUpdate.containerTransformer = EcsTaskUpdate.containerTransformer.
Proof. reflexivity. Qed.

Lemma filter_named_nil {num : Number} toMatch (l : list obj) :
  Forall (λ c, named toMatch c = false) l → List.filter (named toMatch) l = [].
Proof.
  induction 1 as [|c l Hc _ IH]; simpl; [done|]. by rewrite Hc.
Qed.

(** C1.  In a container list where exactly one container has the target
    name, mapping [containerTransformer] over the list keeps the length and
    the order, replaces that one container by itself with [image] set to
    the new image, and leaves every other container, and every other field
    of the rewritten one, as it was. *)
Theorem rewrite_changes_only_named_image {num : Number} toMatch newImage (l : list obj) :
  length (List.filter (named toMatch) l) = 1 →
  let l' := map (EcsTaskUpdate.containerTransformer toMatch newImage) l in
  length l' = length l ∧
  ∃ i c c',
    l !! i = Some c ∧ named toMatch c = true ∧
    l' !! i = Some c' ∧
    c' !! "image" = Some newImage ∧
    (∀ k, k ≠ "image" → c' !! k = c !! k) ∧
    (∀ j, j ≠ i → l' !! j = l !! j) ∧
    l' = <[i := c']> l.
Proof.
  intros Hone l'. split; [apply length_map|].
  destruct (rewrite_one_match toMatch newImage l Hone) as (i & c & Hi & Hc & Heq).
  exists i, c, (<["image" := newImage]> c). subst l'. rewrite Heq.
  split_and!; try done.
  - apply list_lookup_insert_eq. by eapply lookup_lt_Some.
  - apply lookup_insert_eq.
  - intros k Hk. by apply lookup_insert_ne.
  - intros j Hj. by apply list_lookup_insert_ne.
Qed.

Lemma rewrite_changes_only_named_image_witness :
  let l : list obj :=
    [ {[ "name" := VStr "db"; "image" := VStr "postgres:9" ]};
      {[ "name" := VStr "web"; "image" := VStr "repo/app:v1"; "memory" := VNum (safe 128 I) ]} ] in
  let l' := map (EcsTaskUpdate.containerTransformer (VStr "web") (VStr "repo/app:v2")) l in
  length l' = length l ∧
  ∃ i c c',
    l !! i = Some c ∧ named (VStr "web") c = true ∧
    l' !! i = Some c' ∧
    c' !! "image" = Some (VStr "repo/app:v2") ∧
    (∀ k, k ≠ "image" → c' !! k = c !! k) ∧
    (∀ j, j ≠ i → l' !! j = l !! j) ∧
    l' = <[i := c']> l.
Proof.
  apply (rewrite_changes_only_named_image (VStr "web") (VStr "repo/app:v2")).
  reflexivity.
Defined.

(** C6.  When no container of the list has the target name, the rewrite
    returns the list as it was, in both handlers; [updateTask] throws
    nothing and sends the register request with the container list
    unchanged. *)
Theorem rewrite_without_named_is_noop {num : Number} toMatch newImage (l : list obj) :
  Forall (λ c, named toMatch c = false) l →
  map (EcsTaskUpdate.containerTransformer toMatch newImage) l = l ∧
  map (EcsTaskContainerUpdate.containerTransformer toMatch newImage) l = l ∧
  (∀ p fs,
     EcsTaskUpdate.containerName p = toMatch →
     EcsTaskUpdate.updateTask p
       {| taskDefinition := {| fields := fs; containerDefinitions := l |} |}
     = request RegisterTaskDefinition
         {[ "family" := get fs "family";
            "volumes" := get fs "volumes";
            "taskRoleArn" := get fs "taskRoleArn";
            "containerDefinitions" := VArr (VObj <$> l) ]}) ∧
  (∀ p fs,
     EcsTaskContainerUpdate.containerName p = toMatch →
     EcsTaskContainerUpdate.updateTask p
       {| taskDefinition := {| fields := fs; containerDefinitions := l |} |}
     = request RegisterTaskDefinition
         {[ "family" := get fs "family";
            "volumes" := get fs "volumes";
            "taskRoleArn" := get fs "taskRoleArn";
            "containerDefinitions" := VArr (VObj <$> l) ]}).
Proof.
  intros Hl. apply filter_named_nil in Hl.
  change (@EcsTaskContainerUpdate.containerTransformer num)
    with (@EcsTaskUpdate.containerTransformer num).
  split_and!.
  - by apply rewrite_without_match.
  - by apply rewrite_without_match.
  - intros p fs <-. unfold EcsTaskUpdate.updateTask. simpl.
    by rewrite rewrite_without_match.
  - intros p fs <-. unfold EcsTaskContainerUpdate.updateTask. simpl.
    change (@EcsTaskContainerUpdate.containerTransformer num)
      with (@EcsTaskUpdate.containerTransformer num).
    by rewrite rewrite_without_match.
Qed.

Lemma rewrite_without_named_is_noop_witness :
  let l : list obj :=
    [ {[ "name" := VStr "db"; "image" := VStr "postgres:9" ]};
      {[ "name" := VStr "cache" ]} ] in
  map (EcsTaskUpdate.containerTransformer (VStr "web") (VStr "repo/app:v2")) l = l.
Proof.
  intros l.
  apply (rewrite_without_named_is_noop (VStr "web") (VStr "repo/app:v2") l).
  repeat constructor.
Defined.

(** ** Validation *)

Lemma is_required_truthy {num : Number} field : truthy (is_required field) = true.
Proof. by destruct field. Qed.

(** The map and filter of the constructors yield one message per missing
    field, in the order of the required list. *)
Lemma collected_errors {num : Number} (required : list string) (event : obj) :
  List.filter truthy
    (map (λ it, if truthy (get event it) then VNull
                else VStr (it +:+ " is required."))
       required)
  = map is_required (missing required event).
Proof.
  unfold missing.
  induction required as [|field required IH]; [done|].
  cbn [map List.filter].
  destruct (truthy (get event field)); cbn [negb map]; [done|].
  fold (is_required field). by rewrite is_required_truthy, IH.
Qed.

Lemma nonempty_length {A} (l : list A) : l ≠ [] → (0 <? length l)%nat = true.
Proof. by destruct l. Qed.

Lemma service_errors_thrown {num : Number} event :
  missing EcsTaskUpdate.requiredParams event ≠ [] →
  EcsTaskUpdate.new_DeployParams event
  = Throw (Thrown (VArr (map is_required
                           (missing EcsTaskUpdate.requiredParams event)))).
Proof.
  intros Hmiss. unfold EcsTaskUpdate.new_DeployParams, EcsTaskUpdate.errors.
  rewrite collected_errors, nonempty_length; [done|].
  by destruct (missing _ event).
Qed.

Lemma family_errors_thrown {num : Number} event :
  missing EcsTaskContainerUpdate.requiredParams event ≠ [] →
  EcsTaskContainerUpdate.new_DeployParams event
  = Throw (Thrown (VArr (map is_required
                           (missing EcsTaskContainerUpdate.requiredParams event)))).
Proof.
  intros Hmiss.
  unfold EcsTaskContainerUpdate.new_DeployParams, EcsTaskContainerUpdate.errors.
  rewrite collected_errors, nonempty_length; [done|].
  by destruct (missing _ event).
Qed.

(** Inversion of a successful construction, service-based handler. *)
Lemma service_params_inv {num : Number} event p :
  EcsTaskUpdate.new_DeployParams event = Ok p →
  missing EcsTaskUpdate.requiredParams event = [] ∧
  ∃ sb st,
    to_string (get event "imageBase") = Ok sb ∧
    to_string (or_else (get event "imageTag") (VStr "latest")) = Ok st ∧
    p = {| EcsTaskUpdate.cluster := or_else (get event "cluster") (VStr "default");
           EcsTaskUpdate.service := get event "service";
           EcsTaskUpdate.taskDefinition := get event "taskDefinition";
           EcsTaskUpdate.containerName := get event "containerName";
           EcsTaskUpdate.imageBase := get event "imageBase";
           EcsTaskUpdate.imageTag := or_else (get event "imageTag") (VStr "latest");
           EcsTaskUpdate.image := VStr ((sb +:+ ":") +:+ st) |}.
Proof.
  unfold EcsTaskUpdate.new_DeployParams, EcsTaskUpdate.errors.
  rewrite collected_errors.
  destruct (missing _ event) as [|f fs]; [|done]. simpl.
  unfold add. intros Hp. split; [done|].
  destruct (to_string (get event "imageBase")) as [sb|]; [|done]. simpl in Hp.
  destruct (to_string (or_else (get event "imageTag") (VStr "latest"))) as [st|];
    [|done].
  simpl in Hp. exists sb, st. by injection Hp as <-.
Qed.

(** Inversion of a successful construction, task-family handler. *)
Lemma family_params_inv {num : Number} event p :
  EcsTaskContainerUpdate.new_DeployParams event = Ok p →
  missing EcsTaskContainerUpdate.requiredParams event = [] ∧
  truthy (get event "cluster") && negb (truthy (get event "service")) = false ∧
  ∃ sb st,
    to_string (get event "imageBase") = Ok sb ∧
    to_string (or_else (get event "imageTag") (VStr "latest")) = Ok st ∧
    p = {| EcsTaskContainerUpdate.imageBase := get event "imageBase";
           EcsTaskContainerUpdate.imageTag := or_else (get event "imageTag") (VStr "latest");
           EcsTaskContainerUpdate.image := VStr ((sb +:+ ":") +:+ st);
           EcsTaskContainerUpdate.taskFamily := get event "taskFamily";
           EcsTaskContainerUpdate.containerName := get event "containerName";
           EcsTaskContainerUpdate.cluster := or_else (get event "cluster") (VStr "default");
           EcsTaskContainerUpdate.service := get event "service" |}.
Proof.
  unfold EcsTaskContainerUpdate.new_DeployParams, EcsTaskContainerUpdate.errors.
  rewrite collected_errors.
  destruct (missing _ event) as [|f fs]; [|done]. simpl.
  unfold add. intros Hp. split; [done|].
  destruct (to_string (get event "imageBase")) as [sb|]; [|done]. simpl in Hp.
  destruct (to_string (or_else (get event "imageTag") (VStr "latest"))) as [st|];
    [|done].
  simpl in Hp.
  destruct (truthy (get event "cluster") && negb (truthy (get event "service")));
    [done|].
  split; [done|]. exists sb, st. by injection Hp as <-.
Qed.

Lemma or_absent {num : Number} (event : obj) key fallback :
  event !! key = None → or_else (get event key) fallback = fallback.
Proof. unfold or_else, get. by intros ->. Qed.

(** C3.  In both handlers, an event that lacks at least one required field
    (absent, or falsy) makes the constructor throw, so no parameter object
    is built, and what it throws is the array holding the message
    ["<field> is required."] of every missing required field, in the order
    of the required list. *)
Theorem validation_lists_every_missing_field {num : Number} (event : obj) :
  (missing EcsTaskUpdate.requiredParams event ≠ [] →
   EcsTaskUpdate.new_DeployParams event
   = Throw (Thrown (VArr (map is_required
                            (missing EcsTaskUpdate.requiredParams event)))))
  ∧
  (missing EcsTaskContainerUpdate.requiredParams event ≠ [] →
   EcsTaskContainerUpdate.new_DeployParams event
   = Throw (Thrown (VArr (map is_required
                            (missing EcsTaskContainerUpdate.requiredParams event))))).
Proof.
  split; [apply service_errors_thrown | apply family_errors_thrown].
Qed.

Lemma validation_lists_every_missing_field_witness :
  let event : obj :=
    {[ "service" := VStr "svc"; "containerName" := VStr ""; "imageTag" := VStr "v2" ]} in
  EcsTaskUpdate.new_DeployParams event
  = Throw (Thrown (VArr [VStr "taskDefinition is required.";
                         VStr "containerName is required.";
                         VStr "imageBase is required."]))
  ∧
  EcsTaskContainerUpdate.new_DeployParams event
  = Throw (Thrown (VArr [VStr "taskFamily is required.";
                         VStr "containerName is required.";
                         VStr "imageBase is required."])).
Proof.
  intros event. split.
  - apply (proj1 (validation_lists_every_missing_field event)).
    vm_compute. discriminate.
  - apply (proj2 (validation_lists_every_missing_field event)).
    vm_compute. discriminate.
Defined.

Lemma image_string b t : (b +:+ ":") +:+ t = b +:+ ":" +:+ t.
Proof.
  induction b as [|a b IH]; [done|].
  change (String a ((b +:+ ":") +:+ t) = String a (b +:+ ":" +:+ t)).
  by rewrite IH.
Qed.

Lemma or_else_cases {num : Number} (a b : value) :
  (truthy a = true → or_else a b = a) ∧ (truthy a = false → or_else a b = b).
Proof. unfold or_else. by destruct (truthy a). Qed.

(** C2.  In both handlers, the object built from an event that passes
    validation has [image] equal to [imageBase + ":" + imageTag], where
    [imageBase] is the event's and [imageTag] is the event's or ["latest"]
    when the event has none; [cluster] is the event's or ["default"] when
    the event has none.  Spelled out: a truthy [imageTag] or [cluster] of
    the event is kept and a falsy or absent one gives the default; for
    strings [b] and [t] the image is the string [b:t]; a number as
    [imageTag] enters the image as [Number::toString] prints it. *)
Theorem image_is_base_colon_tag {num : Number} (event : obj) :
  (∀ p, EcsTaskUpdate.new_DeployParams event = Ok p →
     EcsTaskUpdate.imageBase p = get event "imageBase" ∧
     EcsTaskUpdate.imageTag p = or_else (get event "imageTag") (VStr "latest") ∧
     EcsTaskUpdate.cluster p = or_else (get event "cluster") (VStr "default") ∧
     (event !! "imageTag" = None → EcsTaskUpdate.imageTag p = VStr "latest") ∧
     (event !! "cluster" = None → EcsTaskUpdate.cluster p = VStr "default") ∧
     (base ← add (EcsTaskUpdate.imageBase p) (VStr ":");
      add base (EcsTaskUpdate.imageTag p)) = Ok (EcsTaskUpdate.image p) ∧
     (∃ sb st,
       to_string (EcsTaskUpdate.imageBase p) = Ok sb ∧
       to_string (EcsTaskUpdate.imageTag p) = Ok st ∧
       EcsTaskUpdate.image p = VStr ((sb +:+ ":") +:+ st)) ∧
     (truthy (get event "imageTag") = true →
      EcsTaskUpdate.imageTag p = get event "imageTag") ∧
     (truthy (get event "imageTag") = false →
      EcsTaskUpdate.imageTag p = VStr "latest") ∧
     (truthy (get event "cluster") = true →
      EcsTaskUpdate.cluster p = get event "cluster") ∧
     (truthy (get event "cluster") = false →
      EcsTaskUpdate.cluster p = VStr "default") ∧
     (∀ b t : string,
        EcsTaskUpdate.imageBase p = VStr b →
        EcsTaskUpdate.imageTag p = VStr t →
        EcsTaskUpdate.image p = VStr (b +:+ ":" +:+ t)) ∧
     (∀ (b : string) (n : number),
        EcsTaskUpdate.imageBase p = VStr b →
        EcsTaskUpdate.imageTag p = VNum n →
        EcsTaskUpdate.image p = VStr (b +:+ ":" +:+ number_to_string n)))
  ∧
  (∀ p, EcsTaskContainerUpdate.new_DeployParams event = Ok p →
     EcsTaskContainerUpdate.imageBase p = get event "imageBase" ∧
     EcsTaskContainerUpdate.imageTag p = or_else (get event "imageTag") (VStr "latest") ∧
     EcsTaskContainerUpdate.cluster p = or_else (get event "cluster") (VStr "default") ∧
     (event !! "imageTag" = None → EcsTaskContainerUpdate.imageTag p = VStr "latest") ∧
     (event !! "cluster" = None → EcsTaskContainerUpdate.cluster p = VStr "default") ∧
     (base ← add (EcsTaskContainerUpdate.imageBase p) (VStr ":");
      add base (EcsTaskContainerUpdate.imageTag p))
     = Ok (EcsTaskContainerUpdate.image p) ∧
     (∃ sb st,
       to_string (EcsTaskContainerUpdate.imageBase p) = Ok sb ∧
       to_string (EcsTaskContainerUpdate.imageTag p) = Ok st ∧
       EcsTaskContainerUpdate.image p = VStr ((sb +:+ ":") +:+ st)) ∧
     (truthy (get event "imageTag") = true →
      EcsTaskContainerUpdate.imageTag p = get event "imageTag") ∧
     (truthy (get event "imageTag") = false →
      EcsTaskContainerUpdate.imageTag p = VStr "latest") ∧
     (truthy (get event "cluster") = true →
      EcsTaskContainerUpdate.cluster p = get event "cluster") ∧
     (truthy (get event "cluster") = false →
      EcsTaskContainerUpdate.cluster p = VStr "default") ∧
     (∀ b t : string,
        EcsTaskContainerUpdate.imageBase p = VStr b →
        EcsTaskContainerUpdate.imageTag p = VStr t →
        EcsTaskContainerUpdate.image p = VStr (b +:+ ":" +:+ t)) ∧
     (∀ (b : string) (n : number),
        EcsTaskContainerUpdate.imageBase p = VStr b →
        EcsTaskContainerUpdate.imageTag p = VNum n →
        EcsTaskContainerUpdate.image p = VStr (b +:+ ":" +:+ number_to_string n))).
Proof.
  split; intros p Hp.
  - apply service_params_inv in Hp as (_ & sb & st & Hsb & Hst & ->). simpl.
    split_and!; try done; try (by apply or_absent);
      try (by apply or_else_cases).
    + unfold add. by rewrite Hsb; simpl; rewrite Hst.
    + by exists sb, st.
    + intros b t Hb Ht. rewrite Hb in Hsb. rewrite Ht in Hst.
      injection Hsb as <-. injection Hst as <-. by rewrite image_string.
    + intros b n Hb Hn. rewrite Hb in Hsb. rewrite Hn in Hst.
      injection Hsb as <-. injection Hst as <-. by rewrite image_string.
  - apply family_params_inv in Hp as (_ & _ & sb & st & Hsb & Hst & ->). simpl.
    split_and!; try done; try (by apply or_absent);
      try (by apply or_else_cases).
    + unfold add. by rewrite Hsb; simpl; rewrite Hst.
    + by exists sb, st.
    + intros b t Hb Ht. rewrite Hb in Hsb. rewrite Ht in Hst.
      injection Hsb as <-. injection Hst as <-. by rewrite image_string.
    + intros b n Hb Hn. rewrite Hb in Hsb. rewrite Hn in Hst.
      injection Hsb as <-. injection Hst as <-. by rewrite image_string.
Qed.

Lemma image_is_base_colon_tag_witness :
  (∃ p,
     EcsTaskUpdate.new_DeployParams service_event = Ok p ∧
     EcsTaskUpdate.imageTag p = VStr "latest" ∧
     EcsTaskUpdate.cluster p = VStr "default" ∧
     EcsTaskUpdate.image p = VStr "repo/app:latest")
  ∧
  (∃ p,
     EcsTaskContainerUpdate.new_DeployParams family_event = Ok p ∧
     EcsTaskContainerUpdate.imageTag p = VStr "v2" ∧
     EcsTaskContainerUpdate.cluster p = VStr "default" ∧
     EcsTaskContainerUpdate.image p = VStr "repo/app:v2")
  ∧
  (∃ p,
     EcsTaskContainerUpdate.new_DeployParams
       (<["imageTag" := VNum (safe 7 I)]> family_event) = Ok p ∧
     EcsTaskContainerUpdate.image p = VStr "repo/app:7").
Proof.
  split_and!.
  - eexists. split; [reflexivity|].
    destruct (proj1 (image_is_base_colon_tag service_event) _ eq_refl)
      as (Hbase & _ & _ & _ & _ & _ & _ & _ & Htag & _ & Hcluster & Himage & _).
    split_and!; [exact (Htag eq_refl) | exact (Hcluster eq_refl)|].
    exact (Himage "repo/app" "latest" Hbase (Htag eq_refl)).
  - eexists. split; [reflexivity|].
    destruct (proj2 (image_is_base_colon_tag family_event) _ eq_refl)
      as (Hbase & _ & _ & _ & _ & _ & _ & Htag & _ & _ & Hcluster & Himage & _).
    split_and!; [exact (Htag eq_refl) | exact (Hcluster eq_refl)|].
    exact (Himage "repo/app" "v2" Hbase (Htag eq_refl)).
  - exists {| EcsTaskContainerUpdate.imageBase := VStr "repo/app";
              EcsTaskContainerUpdate.imageTag := VNum (safe 7 I);
              EcsTaskContainerUpdate.image := VStr "repo/app:7";
              EcsTaskContainerUpdate.taskFamily := VStr "app";
              EcsTaskContainerUpdate.containerName := VStr "web";
              EcsTaskContainerUpdate.cluster := VStr "default";
              EcsTaskContainerUpdate.service := VUndef |}.
    assert (EcsTaskContainerUpdate.new_DeployParams
              (<["imageTag" := VNum (safe 7 I)]> family_event)
            = Ok {| EcsTaskContainerUpdate.imageBase := VStr "repo/app";
                    EcsTaskContainerUpdate.imageTag := VNum (safe 7 I);
                    EcsTaskContainerUpdate.image := VStr "repo/app:7";
                    EcsTaskContainerUpdate.taskFamily := VStr "app";
                    EcsTaskContainerUpdate.containerName := VStr "web";
                    EcsTaskContainerUpdate.cluster := VStr "default";
                    EcsTaskContainerUpdate.service := VUndef |}) as Hnew
      by (vm_compute; reflexivity).
    split; [exact Hnew|].
    destruct (proj2 (image_is_base_colon_tag
                       (<["imageTag" := VNum (safe 7 I)]> family_event))
                _ Hnew)
      as (Hbase & _ & _ & _ & _ & _ & _ & Htag & _ & _ & _ & _ & Hnumber).
    exact (Hnumber "repo/app" (safe 7 I) Hbase (Htag eq_refl)).
Defined.

(** C7, as stated, fails: an event with a cluster and no service that also
    lacks required fields is rejected with the missing-field messages, and
    the cluster and service rule is never reached. *)
Lemma cluster_without_service_counterexample :
  let event : obj := {[ "cluster" := VStr "prod" ]} in
  truthy (get event "cluster") = true ∧
  event !! "service" = None ∧
  EcsTaskContainerUpdate.new_DeployParams event
  = Throw (Thrown (VArr [VStr "taskFamily is required.";
                         VStr "containerName is required.";
                         VStr "imageBase is required."])) ∧
  EcsTaskContainerUpdate.new_DeployParams event
  ≠ Throw (Thrown (VArr [VStr "service is required when cluster is specified"])).
Proof. vm_compute. split_and!; [done..|discriminate]. Qed.

(** C7, amended.  In the task-family handler, an event that has every
    required field, whose [imageBase] and [imageTag] convert to strings, and
    that has a truthy [cluster] but no truthy [service], makes the
    constructor throw exactly
    [["service is required when cluster is specified"]]. *)
Theorem cluster_requires_service {num : Number} (event : obj) (sb st : string) :
  missing EcsTaskContainerUpdate.requiredParams event = [] →
  to_string (get event "imageBase") = Ok sb →
  to_string (or_else (get event "imageTag") (VStr "latest")) = Ok st →
  truthy (get event "cluster") = true →
  truthy (get event "service") = false →
  EcsTaskContainerUpdate.new_DeployParams event
  = Throw (Thrown (VArr [VStr "service is required when cluster is specified"])).
Proof.
  intros Hmiss Hsb Hst Hcluster Hservice.
  unfold EcsTaskContainerUpdate.new_DeployParams, EcsTaskContainerUpdate.errors.
  rewrite collected_errors, Hmiss. simpl.
  unfold add. rewrite Hsb. simpl. rewrite Hst. simpl.
  by rewrite Hcluster, Hservice.
Qed.

Lemma cluster_requires_service_witness :
  EcsTaskContainerUpdate.new_DeployParams (<["cluster" := VStr "prod"]> family_event)
  = Throw (Thrown (VArr [VStr "service is required when cluster is specified"])).
Proof.
  apply (cluster_requires_service
           (<["cluster" := VStr "prod"]> family_event) "repo/app" "v2");
    vm_compute; reflexivity.
Defined.

(** ** The service-based flow *)

Section service_flow.
Context {num : Number}.
Import EcsTaskUpdate.
Variable env : environment.
Variable p : DeployParams.

Let q1 : obj := {[ "cluster" := cluster p; "services" := VArr [service p] ]}.
Let q2 (first : obj) : obj := {[ "taskDefinition" := get first "taskDefinition" ]}.
Let q3 (dt : TaskDefinitionResponse) : obj :=
  {[ "family" := get (fields (ECS.taskDefinition dt)) "family";
     "volumes" := get (fields (ECS.taskDefinition dt)) "volumes";
     "taskRoleArn" := get (fields (ECS.taskDefinition dt)) "taskRoleArn";
     "containerDefinitions" :=
       VArr (VObj <$> map (containerTransformer (containerName p) (image p))
                          (containerDefinitions (ECS.taskDefinition dt))) ]}.
Let q4 (rt : TaskDefinitionResponse) : obj :=
  {[ "cluster" := cluster p;
     "service" := service p;
     "taskDefinition" := get (fields (ECS.taskDefinition rt)) "taskDefinitionArn" ]}.

(** Every run of the chain, by the outcomes of the requests. *)
Lemma service_chain_run :
  run env []
    (promised
       (then_ (then_ (then_ (describeService p) (describeTask p))
                 (updateTask p))
          (updateService p)))
  = match env [] DescribeServices q1 with
    | Throw e => ([(DescribeServices, q1)], CbError e)
    | Ok ds =>
      match services ds with
      | [] => ([(DescribeServices, q1)], CbError TypeError)
      | first :: _ =>
        let h2 := [(DescribeServices, q1); (DescribeTaskDefinition, q2 first)] in
        match env [(DescribeServices, q1)] DescribeTaskDefinition (q2 first) with
        | Throw e => (h2, CbError e)
        | Ok dt =>
          let h3 := (h2 ++ [(RegisterTaskDefinition, q3 dt)])%list in
          match env h2 RegisterTaskDefinition (q3 dt) with
          | Throw e => (h3, CbError e)
          | Ok rt =>
            ((h3 ++ [(UpdateService, q4 rt)])%list,
             match env h3 UpdateService (q4 rt) with
             | Ok us => CbSuccess UpdateService us
             | Throw e => CbError e
             end)
          end
        end
      end
    end.
Proof.
  unfold promised.
  cbn [run settle then_ ecs_bind request describeService app].
  fold q1.
  destruct (env [] DescribeServices q1) as [ds|e]; [|done].
  unfold describeTask. destruct (services ds) as [|first rest]; [done|].
  cbn [run ecs_bind request lookup list_lookup app]. fold (q2 first).
  destruct (env _ DescribeTaskDefinition (q2 first)) as [dt|e]; [|done].
  cbn [run ecs_bind request updateTask app]. fold (q3 dt).
  destruct (env _ RegisterTaskDefinition (q3 dt)) as [rt|e]; [|done].
  cbn [run ecs_bind request updateService app]. fold (q4 rt).
  by destruct (env _ UpdateService (q4 rt)).
Qed.
End service_flow.

Lemma service_handler_run {num : Number} env event p :
  EcsTaskUpdate.new_DeployParams event = Ok p →
  run env [] (EcsTaskUpdate.handler event)
  = run env []
      (EcsTaskUpdate.promised
         (then_ (then_ (then_ (EcsTaskUpdate.describeService p)
                          (EcsTaskUpdate.describeTask p))
                   (EcsTaskUpdate.updateTask p))
            (EcsTaskUpdate.updateService p))).
Proof. unfold EcsTaskUpdate.handler. by intros ->. Qed.

(** C5.  In the service-based handler, for an event that passes validation,
    the operations called are always an initial part of describe-services,
    describe-task-definition, register-task-definition, update-service, in
    that order; and when each request is answered with a payload, the first
    one listing at least one service, exactly these four requests are sent:
    the task definition described is the one the first listed service
    refers to, the registered definition is built from the described one,
    the service is updated to the ARN of the registered one, and the
    callback receives the payload of the update. *)
Theorem service_flow_four_requests {num : Number} (env : environment) (event : obj) p :
  EcsTaskUpdate.new_DeployParams event = Ok p →
  let q1 : obj :=
    {[ "cluster" := EcsTaskUpdate.cluster p;
       "services" := VArr [EcsTaskUpdate.service p] ]} in
  ops (run env [] (EcsTaskUpdate.handler event)).1
    `prefix_of` [DescribeServices; DescribeTaskDefinition;
                 RegisterTaskDefinition; UpdateService]
  ∧
  ∀ ds first rest dt rt us,
    env [] DescribeServices q1 = Ok ds →
    services ds = first :: rest →
    let q2 : obj := {[ "taskDefinition" := get first "taskDefinition" ]} in
    env [(DescribeServices, q1)] DescribeTaskDefinition q2 = Ok dt →
    let q3 : obj :=
      {[ "family" := get (fields (taskDefinition dt)) "family";
         "volumes" := get (fields (taskDefinition dt)) "volumes";
         "taskRoleArn" := get (fields (taskDefinition dt)) "taskRoleArn";
         "containerDefinitions" :=
           VArr (VObj <$> map (EcsTaskUpdate.containerTransformer
                                 (EcsTaskUpdate.containerName p)
                                 (EcsTaskUpdate.image p))
                              (containerDefinitions (taskDefinition dt))) ]} in
    env [(DescribeServices, q1); (DescribeTaskDefinition, q2)]
      RegisterTaskDefinition q3 = Ok rt →
    let q4 : obj :=
      {[ "cluster" := EcsTaskUpdate.cluster p;
         "service" := EcsTaskUpdate.service p;
         "taskDefinition" := get (fields (taskDefinition rt)) "taskDefinitionArn" ]} in
    env [(DescribeServices, q1); (DescribeTaskDefinition, q2);
         (RegisterTaskDefinition, q3)] UpdateService q4 = Ok us →
    run env [] (EcsTaskUpdate.handler event)
    = ([(DescribeServices, q1); (DescribeTaskDefinition, q2);
        (RegisterTaskDefinition, q3); (UpdateService, q4)],
       CbSuccess UpdateService us).
Proof.
  intros Hp q1. rewrite (service_handler_run env event p Hp), service_chain_run.
  fold q1. split.
  - destruct (env [] DescribeServices q1) as [ds|e];
      [|by eexists].
    destruct (services ds) as [|first rest]; [by eexists|]. cbn zeta.
    destruct (env _ DescribeTaskDefinition _) as [dt|e]; [|by eexists].
    destruct (env _ RegisterTaskDefinition _) as [rt|e]; by eexists.
  - intros ds first rest dt rt us H1 Hds q2 H2 q3 H3 q4 H4.
    rewrite H1, Hds. cbn zeta. fold q2. rewrite H2. fold q3.
    cbn [app]. rewrite H3. fold q4. by rewrite H4.
Qed.

Lemma service_flow_four_requests_witness :
  run scenario_env [] (EcsTaskUpdate.handler service_event)
  = ([(DescribeServices,
       {[ "cluster" := VStr "default"; "services" := VArr [VStr "svc"] ]});
      (DescribeTaskDefinition,
       {[ "taskDefinition" := VStr "arn:task/app:3" ]});
      (RegisterTaskDefinition,
       {[ "family" := VStr "app";
          "volumes" := VArr [];
          "taskRoleArn" := VUndef;
          "containerDefinitions" :=
            VArr [VObj {[ "name" := VStr "db"; "image" := VStr "postgres:9" ]};
                  VObj {[ "name" := VStr "web"; "image" := VStr "repo/app:latest" ]}] ]});
      (UpdateService,
       {[ "cluster" := VStr "default"; "service" := VStr "svc";
          "taskDefinition" := VStr "arn:task/app:4" ]})],
     CbSuccess UpdateService {[ "service" := VObj {[ "serviceName" := VStr "svc" ]} ]}).
Proof.
  exact (proj2 (service_flow_four_requests scenario_env service_event
                  {| EcsTaskUpdate.cluster := VStr "default";
                     EcsTaskUpdate.service := VStr "svc";
                     EcsTaskUpdate.taskDefinition := VStr "app:3";
                     EcsTaskUpdate.containerName := VStr "web";
                     EcsTaskUpdate.imageBase := VStr "repo/app";
                     EcsTaskUpdate.imageTag := VStr "latest";
                     EcsTaskUpdate.image := VStr "repo/app:latest" |}
                  eq_refl)
           _ _ _ _ _ _ eq_refl eq_refl eq_refl eq_refl eq_refl).
Defined.

(** C9.  In the service-based handler, when describe-services answers with
    an empty service list, the flow stops there: the callback receives an
    error, and no other request is sent, so neither
    register-task-definition nor update-service is called. *)
Theorem empty_service_list_aborts {num : Number} (env : environment) (event : obj) p ds :
  EcsTaskUpdate.new_DeployParams event = Ok p →
  let q1 : obj :=
    {[ "cluster" := EcsTaskUpdate.cluster p;
       "services" := VArr [EcsTaskUpdate.service p] ]} in
  env [] DescribeServices q1 = Ok ds →
  services ds = [] →
  run env [] (EcsTaskUpdate.handler event)
  = ([(DescribeServices, q1)], CbError TypeError) ∧
  (RegisterTaskDefinition ∉ ops (run env [] (EcsTaskUpdate.handler event)).1) ∧
  (UpdateService ∉ ops (run env [] (EcsTaskUpdate.handler event)).1).
Proof.
  intros Hp q1 H1 Hds.
  rewrite (service_handler_run env event p Hp), service_chain_run.
  fold q1. rewrite H1, Hds. cbn [fst ops map].
  split_and!; [done| |]; by intros ?%list_elem_of_singleton.
Qed.

Lemma empty_service_list_aborts_witness :
  run no_service_env [] (EcsTaskUpdate.handler service_event)
  = ([(DescribeServices,
       {[ "cluster" := VStr "default"; "services" := VArr [VStr "svc"] ]})],
     CbError TypeError).
Proof.
  exact (proj1 (empty_service_list_aborts no_service_env service_event
                  {| EcsTaskUpdate.cluster := VStr "default";
                     EcsTaskUpdate.service := VStr "svc";
                     EcsTaskUpdate.taskDefinition := VStr "app:3";
                     EcsTaskUpdate.containerName := VStr "web";
                     EcsTaskUpdate.imageBase := VStr "repo/app";
                     EcsTaskUpdate.imageTag := VStr "latest";
                     EcsTaskUpdate.image := VStr "repo/app:latest" |}
                  {| services := [] |} eq_refl eq_refl eq_refl)).
Defined.

Lemma get_agree {num : Number} (e1 e2 : obj) key :
  e1 !! key = e2 !! key → get e1 key = get e2 key.
Proof. unfold get. by intros ->. Qed.

Lemma missing_nil_truthy {num : Number} required (event : obj) field :
  missing required event = [] → field ∈ required →
  truthy (get event field) = true.
Proof.
  unfold missing. intros Hnil Hin.
  destruct (truthy (get event field)) eqn:Hfield; [done|].
  assert (In field (List.filter (λ f, negb (truthy (get event f))) required))
    as Hf.
  { apply filter_In. split; [by apply list_elem_of_In|]. by rewrite Hfield. }
  by rewrite Hnil in Hf.
Qed.

(** C10.  In the service-based handler, [taskDefinition] is required: an
    event with a falsy one is rejected with its message in the list, and an
    event that is accepted has a truthy one.  Its value is used by no
    request: two accepted events that agree on every other key lead, in
    any environment, to the same requests and the same call of the
    callback. *)
Theorem taskDefinition_is_required_but_unused {num : Number}
    (env : environment) (e1 e2 : obj) p1 p2 :
  (∀ key, key ≠ "taskDefinition" → e1 !! key = e2 !! key) →
  EcsTaskUpdate.new_DeployParams e1 = Ok p1 →
  EcsTaskUpdate.new_DeployParams e2 = Ok p2 →
  truthy (get e1 "taskDefinition") = true ∧
  truthy (get e2 "taskDefinition") = true ∧
  (∀ event : obj,
     truthy (get event "taskDefinition") = false →
     ∃ msgs, EcsTaskUpdate.new_DeployParams event = Throw (Thrown (VArr msgs)) ∧
             is_required "taskDefinition" ∈ msgs) ∧
  run env [] (EcsTaskUpdate.handler e1) = run env [] (EcsTaskUpdate.handler e2).
Proof.
  intros Hagree Hp1 Hp2.
  rewrite (service_handler_run env e1 p1 Hp1), (service_handler_run env e2 p2 Hp2).
  apply service_params_inv in Hp1 as (Hm1 & sb1 & st1 & Hsb1 & Hst1 & ->).
  apply service_params_inv in Hp2 as (Hm2 & sb2 & st2 & Hsb2 & Hst2 & ->).
  split_and!.
  - eapply missing_nil_truthy; [done|]. set_solver.
  - eapply missing_nil_truthy; [done|]. set_solver.
  - intros event Hfalsy. eexists. split.
    + apply service_errors_thrown. unfold missing, EcsTaskUpdate.requiredParams.
      cbn [List.filter]. rewrite Hfalsy.
      by destruct (truthy (get event "service")).
    + apply list_elem_of_fmap. exists "taskDefinition". split; [done|].
      apply list_elem_of_In, filter_In. split; [|by rewrite Hfalsy].
      apply list_elem_of_In. set_solver.
  - rewrite !service_chain_run. cbn [EcsTaskUpdate.cluster EcsTaskUpdate.service
      EcsTaskUpdate.containerName EcsTaskUpdate.image].
    rewrite <- !(get_agree e1 e2) in * by (by apply Hagree).
    rewrite Hsb1 in Hsb2. rewrite Hst1 in Hst2.
    injection Hsb2 as <-. injection Hst2 as <-. reflexivity.
Qed.

Lemma taskDefinition_is_required_but_unused_witness :
  run scenario_env [] (EcsTaskUpdate.handler service_event)
  = run scenario_env []
      (EcsTaskUpdate.handler (<["taskDefinition" := VStr "other:7"]> service_event)).
Proof.
  refine (proj2 (proj2 (proj2
    (taskDefinition_is_required_but_unused scenario_env service_event
       (<["taskDefinition" := VStr "other:7"]> service_event) _ _ _ eq_refl eq_refl)))).
  intros key Hkey. symmetry. by apply lookup_insert_ne.
Defined.

(** ** The register request *)

Lemma register_params_registers {num : Number} (task : TaskDefinition) (containers : list obj) :
  registers task containers
    {[ "family" := get (fields task) "family";
       "volumes" := get (fields task) "volumes";
       "taskRoleArn" := get (fields task) "taskRoleArn";
       "containerDefinitions" := VArr (VObj <$> containers) ]}.
Proof.
  assert (dom ({[ "family" := get (fields task) "family";
                  "volumes" := get (fields task) "volumes";
                  "taskRoleArn" := get (fields task) "taskRoleArn";
                  "containerDefinitions" := VArr (VObj <$> containers) ]} : obj)
          = register_fields) as Hdom.
  { rewrite !dom_insert_L, dom_singleton_L. unfold register_fields. set_solver. }
  split_and!; [done|by simplify_map_eq..|].
  intros key Hkey. apply not_elem_of_dom. by rewrite Hdom.
Qed.

(** C8.  In both handlers, for every task definition fetched, [updateTask]
    sends one register-task-definition request whose fields are exactly
    [family], [volumes], [taskRoleArn] and [containerDefinitions]: the first
    three as read from the fetched task definition, the last the rewritten
    container list; no other field of the fetched task definition is in
    the request. *)
Theorem register_request_has_four_fields {num : Number} (result : TaskDefinitionResponse) :
  let task := taskDefinition result in
  (∀ p, ∃ params,
     EcsTaskUpdate.updateTask p result = request RegisterTaskDefinition params ∧
     registers task
       (map (EcsTaskUpdate.containerTransformer
               (EcsTaskUpdate.containerName p) (EcsTaskUpdate.image p))
          (containerDefinitions task))
       params)
  ∧
  (∀ p, ∃ params,
     EcsTaskContainerUpdate.updateTask p result
     = request RegisterTaskDefinition params ∧
     registers task
       (map (EcsTaskContainerUpdate.containerTransformer
               (EcsTaskContainerUpdate.containerName p)
               (EcsTaskContainerUpdate.image p))
          (containerDefinitions task))
       params).
Proof.
  intros task. split; intros p; eexists; (split; [reflexivity|]);
    apply register_params_registers.
Qed.

(** ** The task-family flow *)

Section family_flow.
Context {num : Number}.
Import EcsTaskContainerUpdate.
Variable env : environment.
Variable p : DeployParams.

Let q1 : obj := {[ "taskDefinition" := taskFamily p ]}.
Let q2 (dt : TaskDefinitionResponse) : obj :=
  {[ "family" := get (fields (ECS.taskDefinition dt)) "family";
     "volumes" := get (fields (ECS.taskDefinition dt)) "volumes";
     "taskRoleArn" := get (fields (ECS.taskDefinition dt)) "taskRoleArn";
     "containerDefinitions" :=
       VArr (VObj <$> map (containerTransformer (containerName p) (image p))
                          (containerDefinitions (ECS.taskDefinition dt))) ]}.
Let q3 (rt : TaskDefinitionResponse) : obj :=
  {[ "cluster" := cluster p;
     "service" := service p;
     "taskDefinition" := get (fields (ECS.taskDefinition rt)) "taskDefinitionArn" ]}.

(** Every run of the promise that [buildPromise] returns, settled. *)
Lemma family_chain_run :
  run env [] (let (o, promise) := buildPromise p in settle promise)
  = match env [] DescribeTaskDefinition q1 with
    | Throw e => ([(DescribeTaskDefinition, q1)], CbError e)
    | Ok dt =>
      let h2 := [(DescribeTaskDefinition, q1); (RegisterTaskDefinition, q2 dt)] in
      match env [(DescribeTaskDefinition, q1)] RegisterTaskDefinition (q2 dt) with
      | Throw e => (h2, CbError e)
      | Ok rt =>
        if truthy (service p)
        then ((h2 ++ [(UpdateService, q3 rt)])%list,
              match env h2 UpdateService (q3 rt) with
              | Ok us => CbSuccess UpdateService us
              | Throw e => CbError e
              end)
        else (h2, CbSuccess RegisterTaskDefinition rt)
      end
    end.
Proof.
  unfold buildPromise.
  destruct (truthy (service p)); cbn [negb];
    cbn [run settle then_ ecs_bind request describeTask app]; fold q1;
    (destruct (env [] DescribeTaskDefinition q1) as [dt|e]; [|done]);
    cbn [run ecs_bind request updateTask app]; fold (q2 dt);
    (destruct (env _ RegisterTaskDefinition (q2 dt)) as [rt|e]; [|done]).
  - cbn [run ecs_bind request updateService app]. fold (q3 rt).
    by destruct (env _ UpdateService (q3 rt)).
  - done.
Qed.
End family_flow.

Lemma family_handler_run {num : Number} env event p :
  EcsTaskContainerUpdate.new_DeployParams event = Ok p →
  run env [] (EcsTaskContainerUpdate.handler event)
  = run env []
      (let (o, promise) := EcsTaskContainerUpdate.buildPromise p in
       settle promise).
Proof. unfold EcsTaskContainerUpdate.handler. by intros ->. Qed.

Lemma family_params_service {num : Number} event p :
  EcsTaskContainerUpdate.new_DeployParams event = Ok p →
  EcsTaskContainerUpdate.service p = get event "service".
Proof.
  intros Hp.
  by apply family_params_inv in Hp as (_ & _ & sb & st & _ & _ & ->).
Qed.

(** C4.  In the task-family handler, for an event that passes validation:
    without a service (the field absent, or falsy) update-service is never
    called, whatever the environment answers, the operations called are an
    initial part of describe-task-definition, register-task-definition,
    and once the describe request is answered with a payload exactly these
    two requests are sent; with a service, once the describe and register
    requests are answered with payloads, update-service is called after
    them, with the ARN of the registered task definition. *)
Theorem family_flow_updates_service_only_if_named {num : Number}
    (env : environment) (event : obj) p :
  EcsTaskContainerUpdate.new_DeployParams event = Ok p →
  let q1 : obj := {[ "taskDefinition" := EcsTaskContainerUpdate.taskFamily p ]} in
  let q2 (dt : TaskDefinitionResponse) : obj :=
    {[ "family" := get (fields (taskDefinition dt)) "family";
       "volumes" := get (fields (taskDefinition dt)) "volumes";
       "taskRoleArn" := get (fields (taskDefinition dt)) "taskRoleArn";
       "containerDefinitions" :=
         VArr (VObj <$> map (EcsTaskContainerUpdate.containerTransformer
                               (EcsTaskContainerUpdate.containerName p)
                               (EcsTaskContainerUpdate.image p))
                            (containerDefinitions (taskDefinition dt))) ]} in
  (truthy (get event "service") = false →
   (UpdateService ∉ ops (run env [] (EcsTaskContainerUpdate.handler event)).1) ∧
   ops (run env [] (EcsTaskContainerUpdate.handler event)).1
     `prefix_of` [DescribeTaskDefinition; RegisterTaskDefinition] ∧
   ∀ dt,
     env [] DescribeTaskDefinition q1 = Ok dt →
     (run env [] (EcsTaskContainerUpdate.handler event)).1
     = [(DescribeTaskDefinition, q1); (RegisterTaskDefinition, q2 dt)])
  ∧
  (truthy (get event "service") = true →
   ∀ dt rt,
     env [] DescribeTaskDefinition q1 = Ok dt →
     env [(DescribeTaskDefinition, q1)] RegisterTaskDefinition (q2 dt) = Ok rt →
     (run env [] (EcsTaskContainerUpdate.handler event)).1
     = [(DescribeTaskDefinition, q1); (RegisterTaskDefinition, q2 dt);
        (UpdateService,
         {[ "cluster" := EcsTaskContainerUpdate.cluster p;
            "service" := EcsTaskContainerUpdate.service p;
            "taskDefinition" :=
              get (fields (taskDefinition rt)) "taskDefinitionArn" ]})]).
Proof.
  intros Hp q1 q2.
  rewrite (family_handler_run env event p Hp), family_chain_run.
  rewrite (family_params_service event p Hp). fold q1.
  split; intros Hservice; rewrite Hservice.
  - split_and!.
    + destruct (env [] DescribeTaskDefinition q1) as [dt|e]; cbn zeta.
      * destruct (env _ RegisterTaskDefinition _) as [rt|e];
          cbn [fst ops map]; by apply (bool_decide_unpack _).
      * cbn [fst ops map]. by apply (bool_decide_unpack _).
    + destruct (env [] DescribeTaskDefinition q1) as [dt|e]; [|by eexists].
      cbn zeta. destruct (env _ RegisterTaskDefinition _) as [rt|e]; by eexists.
    + intros dt ->. cbn zeta. fold (q2 dt).
      by destruct (env _ RegisterTaskDefinition (q2 dt)).
  - intros dt rt H1 H2. rewrite H1. cbn zeta. fold (q2 dt). by rewrite H2.
Qed.

Lemma family_flow_updates_service_only_if_named_witness :
  (run scenario_env [] (EcsTaskContainerUpdate.handler family_event)).1
  = [(DescribeTaskDefinition, {[ "taskDefinition" := VStr "app" ]});
     (RegisterTaskDefinition,
      {[ "family" := VStr "app";
         "volumes" := VArr [];
         "taskRoleArn" := VUndef;
         "containerDefinitions" :=
           VArr [VObj {[ "name" := VStr "db"; "image" := VStr "postgres:9" ]};
                 VObj {[ "name" := VStr "web"; "image" := VStr "repo/app:v2" ]}] ]})]
  ∧
  (run scenario_env []
     (EcsTaskContainerUpdate.handler (<["service" := VStr "svc"]> family_event))).1
  = [(DescribeTaskDefinition, {[ "taskDefinition" := VStr "app" ]});
     (RegisterTaskDefinition,
      {[ "family" := VStr "app";
         "volumes" := VArr [];
         "taskRoleArn" := VUndef;
         "containerDefinitions" :=
           VArr [VObj {[ "name" := VStr "db"; "image" := VStr "postgres:9" ]};
                 VObj {[ "name" := VStr "web"; "image" := VStr "repo/app:v2" ]}] ]});
     (UpdateService,
      {[ "cluster" := VStr "default"; "service" := VStr "svc";
         "taskDefinition" := VStr "arn:task/app:4" ]})].
Proof.
  split.
  - exact (proj2 (proj2 (proj1
      (family_flow_updates_service_only_if_named scenario_env family_event
         {| EcsTaskContainerUpdate.imageBase := VStr "repo/app";
            EcsTaskContainerUpdate.imageTag := VStr "v2";
            EcsTaskContainerUpdate.image := VStr "repo/app:v2";
            EcsTaskContainerUpdate.taskFamily := VStr "app";
            EcsTaskContainerUpdate.containerName := VStr "web";
            EcsTaskContainerUpdate.cluster := VStr "default";
            EcsTaskContainerUpdate.service := VUndef |}
         eq_refl) eq_refl)) _ eq_refl).
  - exact (proj2
      (family_flow_updates_service_only_if_named scenario_env
         (<["service" := VStr "svc"]> family_event)
         {| EcsTaskContainerUpdate.imageBase := VStr "repo/app";
            EcsTaskContainerUpdate.imageTag := VStr "v2";
            EcsTaskContainerUpdate.image := VStr "repo/app:v2";
            EcsTaskContainerUpdate.taskFamily := VStr "app";
            EcsTaskContainerUpdate.containerName := VStr "web";
            EcsTaskContainerUpdate.cluster := VStr "default";
            EcsTaskContainerUpdate.service := VStr "svc" |}
         eq_refl) eq_refl _ _ eq_refl eq_refl).
Defined.

(** * Further properties of the handlers *)

(** ** The constructors *)

Lemma primitive_converts {num : Number} v : primitive v = true → ∃ s, to_string v = Ok s.
Proof. destruct v as [| |[]| | | |]; try done; by eexists. Qed.

Lemma or_else_truthy {num : Number} a b : truthy b = true → truthy (or_else a b) = true.
Proof. unfold or_else. by destruct (truthy a) eqn:Ha. Qed.

Lemma or_else_primitive {num : Number} a b :
  primitive a = true → primitive b = true → primitive (or_else a b) = true.
Proof. unfold or_else. by destruct (truthy a). Qed.

(** A conversion throws nothing but a TypeError. *)
Lemma to_string_throws {num : Number} v e : to_string v = Throw e → e = TypeError.
Proof.
  revert v e. fix IH 1. intros v e. destruct v as [| |b| | |l|o]; simpl.
  1,2,4,5: done.
  - by destruct b.
  - revert e. induction l as [|x l IHl]; intros e; [done|].
    assert (∀ e',
      match x with VUndef | VNull => Ok "" | _ => to_string x end = Throw e' →
      e' = TypeError) as Hx.
    { intros e'. pose proof (IH x e') as IHx. by destruct x. }
    destruct l as [|y l]; [apply Hx|].
    match type of IHl with
    | ∀ e, ?J = Throw e → _ => set (rest := J) in *; clearbody rest
    end.
    destruct (match x with VUndef | VNull => Ok "" | _ => to_string x end)
      as [sx|ex]; cbn [mbind result_bind].
    + destruct rest as [sl|el]; [done|]. intros [= <-]. by apply IHl.
    + intros [= <-]. by apply Hx.
  - destruct (o !! "toString"); [|done]. by intros [= <-].
Qed.

Lemma convertible_true {num : Number} v : convertible v = true ↔ ∃ s, to_string v = Ok s.
Proof.
  unfold convertible. destruct (to_string v) as [s|e]; split; try done.
  - by exists s.
  - by intros [s ?].
Qed.

Lemma convertible_false {num : Number} v : convertible v = false → to_string v = Throw TypeError.
Proof.
  unfold convertible. destruct (to_string v) as [s|e] eqn:Hv; [done|].
  intros _. by rewrite (to_string_throws v e Hv).
Qed.

Lemma image_nonempty {num : Number} sb st : truthy (VStr ((sb +:+ ":") +:+ st)) = true.
Proof. by destruct sb. Qed.

(** The steps of the service-based constructor after the required check. *)
Lemma service_constructor_after_check {num : Number} event :
  missing EcsTaskUpdate.requiredParams event = [] →
  EcsTaskUpdate.new_DeployParams event
  = (sb ← to_string (get event "imageBase");
     st ← to_string (or_else (get event "imageTag") (VStr "latest"));
     Ok {| EcsTaskUpdate.cluster := or_else (get event "cluster") (VStr "default");
           EcsTaskUpdate.service := get event "service";
           EcsTaskUpdate.taskDefinition := get event "taskDefinition";
           EcsTaskUpdate.containerName := get event "containerName";
           EcsTaskUpdate.imageBase := get event "imageBase";
           EcsTaskUpdate.imageTag := or_else (get event "imageTag") (VStr "latest");
           EcsTaskUpdate.image := VStr ((sb +:+ ":") +:+ st) |}).
Proof.
  intros Hmiss. unfold EcsTaskUpdate.new_DeployParams, EcsTaskUpdate.errors.
  rewrite collected_errors, Hmiss. cbn [map length Nat.ltb Nat.leb]. unfold add.
  destruct (to_string (get event "imageBase")) as [sb|]; [|done].
  cbn [mbind result_bind to_string].
  by destruct (to_string (or_else (get event "imageTag") (VStr "latest"))).
Qed.

(** The steps of the task-family constructor after the required check. *)
Lemma family_constructor_after_check {num : Number} event :
  missing EcsTaskContainerUpdate.requiredParams event = [] →
  EcsTaskContainerUpdate.new_DeployParams event
  = (sb ← to_string (get event "imageBase");
     st ← to_string (or_else (get event "imageTag") (VStr "latest"));
     if truthy (get event "cluster") && negb (truthy (get event "service"))
     then Throw dependency_error
     else
     Ok {| EcsTaskContainerUpdate.imageBase := get event "imageBase";
           EcsTaskContainerUpdate.imageTag :=
             or_else (get event "imageTag") (VStr "latest");
           EcsTaskContainerUpdate.image := VStr ((sb +:+ ":") +:+ st);
           EcsTaskContainerUpdate.taskFamily := get event "taskFamily";
           EcsTaskContainerUpdate.containerName := get event "containerName";
           EcsTaskContainerUpdate.cluster :=
             or_else (get event "cluster") (VStr "default");
           EcsTaskContainerUpdate.service := get event "service" |}).
Proof.
  intros Hmiss.
  unfold EcsTaskContainerUpdate.new_DeployParams, EcsTaskContainerUpdate.errors.
  rewrite collected_errors, Hmiss. cbn [map length Nat.ltb Nat.leb]. unfold add.
  destruct (to_string (get event "imageBase")) as [sb|]; [|done].
  cbn [mbind result_bind to_string].
  by destruct (to_string (or_else (get event "imageTag") (VStr "latest"))).
Qed.

(** X1.  The service-based constructor accepts an event exactly when every
    required field is truthy and [imageBase] and the effective [imageTag]
    convert to strings. *)
Theorem service_constructor_accepts {num : Number} (event : obj) :
  (∃ p, EcsTaskUpdate.new_DeployParams event = Ok p)
  ↔ missing EcsTaskUpdate.requiredParams event = [] ∧
    convertible (get event "imageBase") = true ∧
    convertible (or_else (get event "imageTag") (VStr "latest")) = true.
Proof.
  split.
  - intros [p Hp].
    apply service_params_inv in Hp as (Hmiss & sb & st & Hsb & Hst & _).
    split_and!; [done| |]; apply convertible_true; by eexists.
  - intros (Hmiss & [sb Hsb]%convertible_true & [st Hst]%convertible_true).
    rewrite (service_constructor_after_check event Hmiss), Hsb, Hst.
    by eexists.
Qed.

(** X2.  The task-family constructor accepts an event exactly when every
    required field is truthy, [imageBase] and the effective [imageTag]
    convert to strings, and a truthy [cluster] comes with a truthy
    [service]. *)
Theorem family_constructor_accepts {num : Number} (event : obj) :
  (∃ p, EcsTaskContainerUpdate.new_DeployParams event = Ok p)
  ↔ missing EcsTaskContainerUpdate.requiredParams event = [] ∧
    convertible (get event "imageBase") = true ∧
    convertible (or_else (get event "imageTag") (VStr "latest")) = true ∧
    (truthy (get event "cluster") = true → truthy (get event "service") = true).
Proof.
  split.
  - intros [p Hp].
    apply family_params_inv in Hp as (Hmiss & Hrule & sb & st & Hsb & Hst & _).
    split_and!; [done| | |].
    + apply convertible_true; by eexists.
    + apply convertible_true; by eexists.
    + intros Hc. rewrite Hc in Hrule. by destruct (truthy (get event "service")).
  - intros (Hmiss & [sb Hsb]%convertible_true & [st Hst]%convertible_true & Hrule).
    rewrite (family_constructor_after_check event Hmiss), Hsb, Hst.
    cbn [mbind result_bind].
    destruct (truthy (get event "cluster")); [|by eexists].
    rewrite Hrule by done. by eexists.
Qed.

(** X3.  What the constructors throw.  The service-based one throws either
    the array of missing-field messages, when a required field is missing,
    or a TypeError, when none is.  The task-family one throws one of these
    or, when no required field is missing, the cluster and service error,
    and then the cluster is truthy and the service is not.  The two kinds of
    validation message never come in one array. *)
Theorem constructors_throw {num : Number} (event : obj) (e : error) :
  (EcsTaskUpdate.new_DeployParams event = Throw e →
   (missing EcsTaskUpdate.requiredParams event ≠ [] ∧
    e = Thrown (VArr (map is_required
                        (missing EcsTaskUpdate.requiredParams event))))
   ∨ (missing EcsTaskUpdate.requiredParams event = [] ∧ e = TypeError))
  ∧
  (EcsTaskContainerUpdate.new_DeployParams event = Throw e →
   (missing EcsTaskContainerUpdate.requiredParams event ≠ [] ∧
    e = Thrown (VArr (map is_required
                        (missing EcsTaskContainerUpdate.requiredParams event))))
   ∨ (missing EcsTaskContainerUpdate.requiredParams event = [] ∧ e = TypeError)
   ∨ (missing EcsTaskContainerUpdate.requiredParams event = [] ∧
      e = dependency_error ∧
      truthy (get event "cluster") = true ∧
      truthy (get event "service") = false)).
Proof.
  split.
  - destruct (missing EcsTaskUpdate.requiredParams event) as [|f fs] eqn:Hmiss.
    + rewrite (service_constructor_after_check event Hmiss). intros He. right.
      split; [done|].
      destruct (to_string (get event "imageBase")) as [sb|e1] eqn:Hsb.
      * cbn [mbind result_bind] in He.
        destruct (to_string (or_else _ _)) as [st|e2] eqn:Hst; [done|].
        injection He as <-. by eapply to_string_throws.
      * injection He as <-. by eapply to_string_throws.
    + rewrite service_errors_thrown by (by rewrite Hmiss).
      rewrite Hmiss. intros [= <-]. by left.
  - destruct (missing EcsTaskContainerUpdate.requiredParams event)
      as [|f fs] eqn:Hmiss.
    + rewrite (family_constructor_after_check event Hmiss). intros He. right.
      destruct (to_string (get event "imageBase")) as [sb|e1] eqn:Hsb.
      * cbn [mbind result_bind] in He.
        destruct (to_string (or_else _ _)) as [st|e2] eqn:Hst.
        -- cbn [mbind result_bind] in He. right.
           destruct (truthy (get event "cluster")),
             (truthy (get event "service")); try done.
           by injection He as <-.
        -- left. injection He as <-. split; [done|]. by eapply to_string_throws.
      * left. injection He as <-. split; [done|]. by eapply to_string_throws.
    + rewrite family_errors_thrown by (by rewrite Hmiss).
      rewrite Hmiss. intros [= <-]. by left.
Qed.

Lemma constructors_throw_witness :
  (missing EcsTaskContainerUpdate.requiredParams
     (<["cluster" := VStr "prod"]> family_event) ≠ [] ∧
   dependency_error
   = Thrown (VArr (map is_required
                     (missing EcsTaskContainerUpdate.requiredParams
                        (<["cluster" := VStr "prod"]> family_event)))))
  ∨ (missing EcsTaskContainerUpdate.requiredParams
       (<["cluster" := VStr "prod"]> family_event) = [] ∧
     dependency_error = TypeError)
  ∨ (missing EcsTaskContainerUpdate.requiredParams
       (<["cluster" := VStr "prod"]> family_event) = [] ∧
     dependency_error = dependency_error ∧
     truthy (get (<["cluster" := VStr "prod"]> family_event) "cluster") = true ∧
     truthy (get (<["cluster" := VStr "prod"]> family_event) "service") = false).
Proof.
  exact (proj2 (constructors_throw (<["cluster" := VStr "prod"]> family_event)
                  dependency_error) eq_refl).
Defined.

(** X4.  When no required field is missing and [imageBase] or the effective
    [imageTag] does not convert to a string, both constructors throw a
    TypeError; the task-family one does so even for a cluster without a
    service, since it forms the image before it checks that rule. *)
Theorem conversion_error_comes_first {num : Number} (event : obj) :
  convertible (get event "imageBase")
  && convertible (or_else (get event "imageTag") (VStr "latest")) = false →
  (missing EcsTaskUpdate.requiredParams event = [] →
   EcsTaskUpdate.new_DeployParams event = Throw TypeError)
  ∧
  (missing EcsTaskContainerUpdate.requiredParams event = [] →
   EcsTaskContainerUpdate.new_DeployParams event = Throw TypeError).
Proof.
  intros Hconv.
  assert (to_string (get event "imageBase") = Throw TypeError
          ∨ (∃ sb, to_string (get event "imageBase") = Ok sb) ∧
            to_string (or_else (get event "imageTag") (VStr "latest"))
            = Throw TypeError) as Hcases.
  { destruct (convertible (get event "imageBase")) eqn:Hb.
    - right. split; [by apply convertible_true|]. by apply convertible_false.
    - left. by apply convertible_false. }
  split; intros Hmiss.
  - rewrite (service_constructor_after_check event Hmiss).
    by destruct Hcases as [->|[[sb ->] ->]].
  - rewrite (family_constructor_after_check event Hmiss).
    by destruct Hcases as [->|[[sb ->] ->]].
Qed.

Lemma conversion_error_comes_first_witness :
  EcsTaskContainerUpdate.new_DeployParams
    (<["imageTag" := VArr [VObj {[ "toString" := VNum (safe 1 I) ]}]]>
       (<["cluster" := VStr "prod"]> family_event))
  = Throw TypeError.
Proof.
  apply (conversion_error_comes_first
           (<["imageTag" := VArr [VObj {[ "toString" := VNum (safe 1 I) ]}]]>
              (<["cluster" := VStr "prod"]> family_event)));
    vm_compute; reflexivity.
Defined.

(** X5.  What an accepted parameter object always satisfies.  In both
    handlers the container name, the image base, the image tag and the
    cluster are truthy and the image is a non-empty string.  In the
    service-based handler the service and the task definition are truthy
    too; in the task-family handler the task family is truthy, and without
    a truthy service the cluster is ["default"]. *)
Theorem accepted_params_invariant {num : Number} (event : obj) :
  (∀ p, EcsTaskUpdate.new_DeployParams event = Ok p →
     truthy (EcsTaskUpdate.cluster p) = true ∧
     truthy (EcsTaskUpdate.service p) = true ∧
     truthy (EcsTaskUpdate.taskDefinition p) = true ∧
     truthy (EcsTaskUpdate.containerName p) = true ∧
     truthy (EcsTaskUpdate.imageBase p) = true ∧
     truthy (EcsTaskUpdate.imageTag p) = true ∧
     truthy (EcsTaskUpdate.image p) = true ∧
     ∃ s, EcsTaskUpdate.image p = VStr s)
  ∧
  (∀ p, EcsTaskContainerUpdate.new_DeployParams event = Ok p →
     truthy (EcsTaskContainerUpdate.cluster p) = true ∧
     truthy (EcsTaskContainerUpdate.taskFamily p) = true ∧
     truthy (EcsTaskContainerUpdate.containerName p) = true ∧
     truthy (EcsTaskContainerUpdate.imageBase p) = true ∧
     truthy (EcsTaskContainerUpdate.imageTag p) = true ∧
     truthy (EcsTaskContainerUpdate.image p) = true ∧
     (∃ s, EcsTaskContainerUpdate.image p = VStr s) ∧
     (truthy (EcsTaskContainerUpdate.service p) = false →
      EcsTaskContainerUpdate.cluster p = VStr "default")).
Proof.
  split; intros p Hp.
  - apply service_params_inv in Hp as (Hmiss & sb & st & _ & _ & ->).
    cbn [EcsTaskUpdate.cluster EcsTaskUpdate.service EcsTaskUpdate.taskDefinition
         EcsTaskUpdate.containerName EcsTaskUpdate.imageBase
         EcsTaskUpdate.imageTag EcsTaskUpdate.image].
    split_and!; try (by apply or_else_truthy); try apply image_nonempty;
      try (eapply missing_nil_truthy; [done|];
           apply list_elem_of_In; cbn; tauto).
    by eexists.
  - apply family_params_inv in Hp as (Hmiss & Hrule & sb & st & _ & _ & ->).
    cbn [EcsTaskContainerUpdate.cluster EcsTaskContainerUpdate.service
         EcsTaskContainerUpdate.taskFamily EcsTaskContainerUpdate.containerName
         EcsTaskContainerUpdate.imageBase EcsTaskContainerUpdate.imageTag
         EcsTaskContainerUpdate.image].
    split_and!; try (by apply or_else_truthy); try apply image_nonempty;
      try (eapply missing_nil_truthy; [done|];
           apply list_elem_of_In; cbn; tauto).
    + by eexists.
    + intros Hs. rewrite Hs in Hrule. unfold or_else.
      by destruct (truthy (get event "cluster")).
Qed.

Lemma accepted_params_invariant_witness :
  ∃ p, EcsTaskContainerUpdate.new_DeployParams family_event = Ok p ∧
       EcsTaskContainerUpdate.cluster p = VStr "default" ∧
       truthy (EcsTaskContainerUpdate.image p) = true.
Proof.
  eexists. split; [reflexivity|].
  destruct (proj2 (accepted_params_invariant family_event) _ eq_refl)
    as (_ & _ & _ & _ & _ & Himage & _ & Hcluster).
  split; [exact (Hcluster eq_refl) | exact Himage].
Defined.

(** X6.  When the event's [imageBase] and [imageTag] are primitives
    (strings, numbers, booleans, null, or absent), neither constructor
    throws a TypeError, and the service-based one accepts every event that
    has its required fields. *)
Theorem primitive_fields_never_TypeError {num : Number} (event : obj) :
  primitive (get event "imageBase") = true →
  primitive (get event "imageTag") = true →
  EcsTaskUpdate.new_DeployParams event ≠ Throw TypeError ∧
  EcsTaskContainerUpdate.new_DeployParams event ≠ Throw TypeError ∧
  (missing EcsTaskUpdate.requiredParams event = [] →
   ∃ p, EcsTaskUpdate.new_DeployParams event = Ok p).
Proof.
  intros Hbase Htag.
  destruct (primitive_converts _ Hbase) as [sb Hsb].
  destruct (primitive_converts (or_else (get event "imageTag") (VStr "latest")))
    as [st Hst]; [by apply or_else_primitive|].
  split_and!.
  - destruct (missing EcsTaskUpdate.requiredParams event) as [|f fs] eqn:Hmiss.
    + by rewrite (service_constructor_after_check event Hmiss), Hsb, Hst.
    + by rewrite service_errors_thrown by (by rewrite Hmiss).
  - destruct (missing EcsTaskContainerUpdate.requiredParams event)
      as [|f fs] eqn:Hmiss.
    + rewrite (family_constructor_after_check event Hmiss), Hsb, Hst.
      cbn [mbind result_bind]. by destruct (_ && _).
    + by rewrite family_errors_thrown by (by rewrite Hmiss).
  - intros Hmiss.
    rewrite (service_constructor_after_check event Hmiss), Hsb, Hst.
    by eexists.
Qed.

Lemma primitive_fields_never_TypeError_witness :
  ∃ p, EcsTaskUpdate.new_DeployParams
         (<["imageTag" := VNum (safe 7 I)]> service_event) = Ok p.
Proof.
  apply (primitive_fields_never_TypeError
           (<["imageTag" := VNum (safe 7 I)]> service_event)); reflexivity.
Defined.

Lemma get_agree_on {num : Number} (keys : list string) (e1 e2 : obj) key :
  Forall (λ k, e1 !! k = e2 !! k) keys → key ∈ keys →
  get e1 key = get e2 key.
Proof.
  intros Hall Hkey. apply get_agree.
  by apply (proj1 (Forall_forall _ _) Hall).
Qed.

(** X7.  Each constructor reads six keys of the event and nothing else: two
    events that agree on these keys give the same result, thrown or
    returned, and the handler then runs alike on both in every
    environment.  The service-based keys are service, taskDefinition,
    containerName, imageBase, cluster, imageTag; the task-family keys are
    taskFamily, containerName, imageBase, imageTag, cluster, service. *)
Theorem constructors_read_only_their_keys {num : Number} (e1 e2 : obj) :
  (Forall (λ k, e1 !! k = e2 !! k) service_keys →
   EcsTaskUpdate.new_DeployParams e1 = EcsTaskUpdate.new_DeployParams e2 ∧
   ∀ env : environment,
     run env [] (EcsTaskUpdate.handler e1) = run env [] (EcsTaskUpdate.handler e2))
  ∧
  (Forall (λ k, e1 !! k = e2 !! k) family_keys →
   EcsTaskContainerUpdate.new_DeployParams e1
   = EcsTaskContainerUpdate.new_DeployParams e2 ∧
   ∀ env : environment,
     run env [] (EcsTaskContainerUpdate.handler e1)
     = run env [] (EcsTaskContainerUpdate.handler e2)).
Proof.
  split; intros Hall.
  - assert (EcsTaskUpdate.new_DeployParams e1 = EcsTaskUpdate.new_DeployParams e2)
      as Hnew.
    { unfold EcsTaskUpdate.new_DeployParams, EcsTaskUpdate.errors,
        EcsTaskUpdate.requiredParams. cbn [map].
      rewrite !(get_agree_on service_keys e1 e2 _ Hall)
        by (apply list_elem_of_In; cbn; tauto).
      reflexivity. }
    split; [done|]. intros env. unfold EcsTaskUpdate.handler. by rewrite Hnew.
  - assert (EcsTaskContainerUpdate.new_DeployParams e1
            = EcsTaskContainerUpdate.new_DeployParams e2) as Hnew.
    { unfold EcsTaskContainerUpdate.new_DeployParams,
        EcsTaskContainerUpdate.errors, EcsTaskContainerUpdate.requiredParams.
      cbn [map].
      rewrite !(get_agree_on family_keys e1 e2 _ Hall)
        by (apply list_elem_of_In; cbn; tauto).
      reflexivity. }
    split; [done|]. intros env.
    unfold EcsTaskContainerUpdate.handler. by rewrite Hnew.
Qed.

Lemma constructors_read_only_their_keys_witness :
  EcsTaskContainerUpdate.new_DeployParams family_event
  = EcsTaskContainerUpdate.new_DeployParams
      (<["taskDefinition" := VStr "app:3"]> (<["comment" := VNull]> family_event)).
Proof.
  apply (constructors_read_only_their_keys family_event
           (<["taskDefinition" := VStr "app:3"]>
              (<["comment" := VNull]> family_event))).
  repeat constructor.
Defined.

(** ** The container rewrite, in general *)

Lemma transformer_rewritten {num : Number} toMatch newImage :
  EcsTaskUpdate.containerTransformer toMatch newImage = rewritten toMatch newImage.
Proof. reflexivity. Qed.

Lemma named_after_rewrite {num : Number} toMatch newImage c :
  named toMatch (rewritten toMatch newImage c) = named toMatch c.
Proof.
  unfold rewritten. destruct (named toMatch c) eqn:Hc; [|done].
  unfold named, get in *. by rewrite lookup_insert_ne.
Qed.

(** X8.  The rewrite on any list, whatever the number of containers with
    the target name: the result has the same length; at each position a
    container with the target name has [image] set to the new image and
    every other field as before, and a container with another name is the
    same as before.  So all containers that share the target name are
    rewritten, not only the first. *)
Theorem rewrite_pointwise {num : Number} toMatch newImage (l : list obj) :
  let l' := map (EcsTaskUpdate.containerTransformer toMatch newImage) l in
  length l' = length l ∧
  ∀ i c, l !! i = Some c →
    ∃ c', l' !! i = Some c' ∧
      (∀ key, key ≠ "image" → c' !! key = c !! key) ∧
      (named toMatch c = true → c' !! "image" = Some newImage) ∧
      (named toMatch c = false → c' = c).
Proof.
  intros l'. split; [apply length_map|].
  intros i c Hi. exists (rewritten toMatch newImage c). split.
  - subst l'. rewrite transformer_rewritten.
    change (map ?f l) with (f <$> l). by rewrite list_lookup_fmap, Hi.
  - unfold rewritten. destruct (named toMatch c); split_and!; try done.
    + intros key Hkey. by apply lookup_insert_ne.
    + intros _. apply lookup_insert_eq.
Qed.

(** X9.  The rewrite is idempotent, in both handlers: a list already
    rewritten for a target and an image is left as it is by the same
    rewrite, since setting the image does not change any name. *)
Theorem rewrite_idempotent {num : Number} toMatch newImage (l : list obj) :
  map (EcsTaskUpdate.containerTransformer toMatch newImage)
    (map (EcsTaskUpdate.containerTransformer toMatch newImage) l)
  = map (EcsTaskUpdate.containerTransformer toMatch newImage) l
  ∧
  map (EcsTaskContainerUpdate.containerTransformer toMatch newImage)
    (map (EcsTaskContainerUpdate.containerTransformer toMatch newImage) l)
  = map (EcsTaskContainerUpdate.containerTransformer toMatch newImage) l.
Proof.
  change (@EcsTaskContainerUpdate.containerTransformer num)
    with (@EcsTaskUpdate.containerTransformer num).
  rewrite transformer_rewritten.
  assert (∀ c, rewritten toMatch newImage (rewritten toMatch newImage c)
               = rewritten toMatch newImage c) as Hc.
  { intros c. unfold rewritten at 1. rewrite named_after_rewrite.
    unfold rewritten. destruct (named toMatch c); [|done].
    apply insert_insert_eq. }
  assert (map (rewritten toMatch newImage) (map (rewritten toMatch newImage) l)
          = map (rewritten toMatch newImage) l) as Hl.
  { rewrite map_map. apply map_ext. intros c. apply Hc. }
  by split.
Qed.

Lemma named_string {num : Number} (s : string) (c : obj) :
  named (VStr s) c = true ↔ c !! "name" = Some (VStr s).
Proof.
  unfold named, get. split.
  - destruct (c !! "name") as [[| | | |s'| |]|]; cbn; try done.
    by intros ->%String.eqb_eq.
  - intros ->. cbn. apply String.eqb_refl.
Qed.

(** X10.  Matching is strict.  For a target that is a string, the
    containers rewritten are exactly those whose [name] is that very
    string: a container without a name, or with a name of another type
    (the number 5 for the target "5"), is returned unchanged. *)
Theorem string_target_matches_exactly {num : Number} (s : string) newImage (c : obj) :
  (c !! "name" = Some (VStr s) →
   EcsTaskUpdate.containerTransformer (VStr s) newImage c
   = <["image" := newImage]> c)
  ∧
  (c !! "name" ≠ Some (VStr s) →
   EcsTaskUpdate.containerTransformer (VStr s) newImage c = c).
Proof.
  rewrite transformer_rewritten. unfold rewritten. split; intros Hname.
  - apply named_string in Hname. by rewrite Hname.
  - destruct (named (VStr s) c) eqn:Hc; [|done]. by apply named_string in Hc.
Qed.

Lemma string_target_matches_exactly_witness :
  EcsTaskUpdate.containerTransformer (VStr "5") (VStr "repo/app:v2")
    {[ "name" := VNum (safe 5 I); "image" := VStr "repo/app:v1" ]}
  = {[ "name" := VNum (safe 5 I); "image" := VStr "repo/app:v1" ]}.
Proof.
  apply (string_target_matches_exactly "5" (VStr "repo/app:v2")
           {[ "name" := VNum (safe 5 I); "image" := VStr "repo/app:v1" ]}).
  vm_compute. discriminate.
Defined.

(** ** How the flows end *)



(** X12.  Every run of the task-family handler on an accepted event ends in
    one of three ways: the rejection of the last request sent, handed to
    the callback unchanged; or, without a truthy service, success with the
    payload of register-task-definition after exactly describe and
    register; or, with a truthy service, success with the payload of
    update-service after exactly describe, register and update. *)
Theorem family_flow_outcome {num : Number} (env : environment) (event : obj) p :
  EcsTaskContainerUpdate.new_DeployParams event = Ok p →
  let r := run env [] (EcsTaskContainerUpdate.handler event) in
  (∃ h o q e,
     r = ((h ++ [(o, q)])%list, CbError e) ∧ env h o q = Throw e)
  ∨ (truthy (EcsTaskContainerUpdate.service p) = false ∧
     ∃ h q rt,
       r = ((h ++ [(RegisterTaskDefinition, q)])%list,
            CbSuccess RegisterTaskDefinition rt) ∧
       env h RegisterTaskDefinition q = Ok rt ∧
       ops r.1 = [DescribeTaskDefinition; RegisterTaskDefinition])
  ∨ (truthy (EcsTaskContainerUpdate.service p) = true ∧
     ∃ h q us,
       r = ((h ++ [(UpdateService, q)])%list, CbSuccess UpdateService us) ∧
       env h UpdateService q = Ok us ∧
       ops r.1 = [DescribeTaskDefinition; RegisterTaskDefinition; UpdateService]).
Proof.
  intros Hp r. subst r.
  rewrite (family_handler_run env event p Hp), family_chain_run.
  destruct (env [] DescribeTaskDefinition _) as [dt|e] eqn:H1.
  - cbn zeta. destruct (env _ RegisterTaskDefinition _) as [rt|e] eqn:H2.
    + destruct (truthy (EcsTaskContainerUpdate.service p)) eqn:Hs.
      * destruct (env _ UpdateService _) as [us|e] eqn:H3.
        -- right; right. split; [done|]. eexists _, _, us. by split_and!.
        -- left. eexists _, UpdateService, _, e. by split.
      * right; left. split; [done|]. eexists [_], _, rt. by split_and!.
    + left. eexists [_], RegisterTaskDefinition, _, e. by split.
  - left. eexists [], DescribeTaskDefinition, _, e. by split.
Qed.

Lemma family_flow_outcome_witness :
  let r := run scenario_env [] (EcsTaskContainerUpdate.handler family_event) in
  (∃ h o q e,
     r = ((h ++ [(o, q)])%list, CbError e) ∧ scenario_env h o q = Throw e)
  ∨ (truthy VUndef = false ∧
     ∃ h q rt,
       r = ((h ++ [(RegisterTaskDefinition, q)])%list,
            CbSuccess RegisterTaskDefinition rt) ∧
       scenario_env h RegisterTaskDefinition q = Ok rt ∧
       ops r.1 = [DescribeTaskDefinition; RegisterTaskDefinition])
  ∨ (truthy VUndef = true ∧
     ∃ h q us,
       r = ((h ++ [(UpdateService, q)])%list, CbSuccess UpdateService us) ∧
       scenario_env h UpdateService q = Ok us ∧
       ops r.1 = [DescribeTaskDefinition; RegisterTaskDefinition; UpdateService]).
Proof.
  exact (family_flow_outcome scenario_env family_event
           {| EcsTaskContainerUpdate.imageBase := VStr "repo/app";
              EcsTaskContainerUpdate.imageTag := VStr "v2";
              EcsTaskContainerUpdate.image := VStr "repo/app:v2";
              EcsTaskContainerUpdate.taskFamily := VStr "app";
              EcsTaskContainerUpdate.containerName := VStr "web";
              EcsTaskContainerUpdate.cluster := VStr "default";
              EcsTaskContainerUpdate.service := VUndef |} eq_refl).
Defined.

Lemma service_flow_four_requests_prefix {num : Number} (env : environment) (event : obj) p :
  EcsTaskUpdate.new_DeployParams event = Ok p →
  ops (run env [] (EcsTaskUpdate.handler event)).1
    `prefix_of` [DescribeServices; DescribeTaskDefinition;
                 RegisterTaskDefinition; UpdateService]
  ∧ ∃ h, (run env [] (EcsTaskUpdate.handler event)).1
         = (DescribeServices,
            {[ "cluster" := EcsTaskUpdate.cluster p;
               "services" := VArr [EcsTaskUpdate.service p] ]}) :: h.
Proof.
  intros Hp. rewrite (service_handler_run env event p Hp), service_chain_run.
  destruct (env [] DescribeServices _) as [ds|e];
    [|split; by eexists].
  destruct (services ds) as [|first rest]; [split; by eexists|]. cbn zeta.
  destruct (env _ DescribeTaskDefinition _) as [dt|e]; [|split; by eexists].
  destruct (env _ RegisterTaskDefinition _) as [rt|e]; split; by eexists.
Qed.

(** X13.  No retry: for every event and every environment, neither handler
    calls an operation twice; the service-based handler sends at most four
    requests and the task-family handler at most three. *)
Theorem no_operation_called_twice {num : Number} (env : environment) (event : obj) :
  NoDup (ops (run env [] (EcsTaskUpdate.handler event)).1) ∧
  (length (run env [] (EcsTaskUpdate.handler event)).1 ≤ 4)%nat ∧
  NoDup (ops (run env [] (EcsTaskContainerUpdate.handler event)).1) ∧
  (length (run env [] (EcsTaskContainerUpdate.handler event)).1 ≤ 3)%nat.
Proof.
  assert (∀ l : list op,
            l `prefix_of` [DescribeServices; DescribeTaskDefinition;
                           RegisterTaskDefinition; UpdateService] →
            NoDup l ∧ (length l ≤ 4)%nat) as Hfour.
  { intros l [k Hk]. split.
    - assert (NoDup (l ++ k)) as Hnd
        by (rewrite <- Hk; by apply (bool_decide_unpack _)).
      by apply NoDup_app in Hnd as [? _].
    - apply (f_equal length) in Hk. rewrite length_app in Hk. simpl in Hk. lia. }
  assert (NoDup (ops (run env [] (EcsTaskUpdate.handler event)).1) ∧
          (length (run env [] (EcsTaskUpdate.handler event)).1 ≤ 4)%nat) as Hservice.
  { destruct (EcsTaskUpdate.new_DeployParams event) as [p|e] eqn:Hp.
    - destruct (Hfour _ (proj1 (service_flow_four_requests_prefix env event p Hp)))
        as [Hnd Hlen].
      split; [done|]. unfold ops in Hlen. by rewrite length_map in Hlen.
    - unfold EcsTaskUpdate.handler. rewrite Hp. cbn. split; [constructor|lia]. }
  assert (NoDup (ops (run env [] (EcsTaskContainerUpdate.handler event)).1) ∧
          (length (run env [] (EcsTaskContainerUpdate.handler event)).1 ≤ 3)%nat)
    as Hfamily.
  { destruct (EcsTaskContainerUpdate.new_DeployParams event) as [p|e] eqn:Hp.
    - rewrite (family_handler_run env event p Hp), family_chain_run.
      destruct (env [] DescribeTaskDefinition _) as [dt|e];
        [|split; [by apply (bool_decide_unpack _)|cbn; lia]].
      cbn zeta. destruct (env _ RegisterTaskDefinition _) as [rt|e];
        [|split; [by apply (bool_decide_unpack _)|cbn; lia]].
      destruct (truthy (EcsTaskContainerUpdate.service p));
        (split; [by apply (bool_decide_unpack _)|cbn; lia]).
    - unfold EcsTaskContainerUpdate.handler. rewrite Hp. cbn.
      split; [constructor|lia]. }
  destruct Hservice, Hfamily. by split_and!.
Qed.

(** X14.  A rejected event reaches no ECS operation: the callback gets what
    the constructor threw and the history stays empty.  An accepted event
    always sends a first request: describe-services for its cluster and
    service in the service-based handler, describe-task-definition for its
    task family in the task-family handler. *)
Theorem rejected_event_sends_nothing {num : Number} (env : environment) (event : obj) :
  match EcsTaskUpdate.new_DeployParams event with
  | Throw e => run env [] (EcsTaskUpdate.handler event) = ([], CbError e)
  | Ok p =>
      ∃ h, (run env [] (EcsTaskUpdate.handler event)).1
           = (DescribeServices,
              {[ "cluster" := EcsTaskUpdate.cluster p;
                 "services" := VArr [EcsTaskUpdate.service p] ]}) :: h
  end
  ∧
  match EcsTaskContainerUpdate.new_DeployParams event with
  | Throw e => run env [] (EcsTaskContainerUpdate.handler event) = ([], CbError e)
  | Ok p =>
      ∃ h, (run env [] (EcsTaskContainerUpdate.handler event)).1
           = (DescribeTaskDefinition,
              {[ "taskDefinition" := EcsTaskContainerUpdate.taskFamily p ]}) :: h
  end.
Proof.
  split.
  - destruct (EcsTaskUpdate.new_DeployParams event) as [p|e] eqn:Hp.
    + apply (service_flow_four_requests_prefix env event p Hp).
    + unfold EcsTaskUpdate.handler. by rewrite Hp.
  - destruct (EcsTaskContainerUpdate.new_DeployParams event) as [p|e] eqn:Hp.
    + rewrite (family_handler_run env event p Hp), family_chain_run.
      destruct (env [] DescribeTaskDefinition _) as [dt|e]; [|by eexists].
      cbn zeta. destruct (env _ RegisterTaskDefinition _) as [rt|e];
        [|by eexists].
      destruct (truthy (EcsTaskContainerUpdate.service p)); by eexists.
    + unfold EcsTaskContainerUpdate.handler. by rewrite Hp.
Qed.

Lemma accepted_service_target {num : Number} event p :
  EcsTaskUpdate.new_DeployParams event = Ok p →
  truthy (EcsTaskUpdate.cluster p) = true ∧
  truthy (EcsTaskUpdate.service p) = true.
Proof.
  intros Hp. apply service_params_inv in Hp as (Hmiss & sb & st & _ & _ & ->).
  split; [by apply or_else_truthy|].
  eapply missing_nil_truthy; [done|]. apply list_elem_of_In. cbn. tauto.
Qed.

Lemma accepted_family_cluster {num : Number} event p :
  EcsTaskContainerUpdate.new_DeployParams event = Ok p →
  truthy (EcsTaskContainerUpdate.cluster p) = true.
Proof.
  intros Hp. apply family_params_inv in Hp as (_ & _ & sb & st & _ & _ & ->).
  by apply or_else_truthy.
Qed.

Ltac sent_cases H :=
  repeat (apply elem_of_cons in H as [H|H]; [try discriminate H|]);
  try (by apply elem_of_nil in H).

(** X15.  Update-service is only ever sent right after a
    register-task-definition request of the same run that was answered with
    a payload, and it names the ARN of that payload, the cluster and the
    service of the parameter object; both are truthy.  So neither handler
    points a service at anything but the task definition it has just
    registered. *)
Theorem update_service_targets_registered {num : Number} (env : environment) (event : obj)
    (q : obj) :
  (∀ p, EcsTaskUpdate.new_DeployParams event = Ok p →
     (UpdateService, q) ∈ (run env [] (EcsTaskUpdate.handler event)).1 →
     ∃ h q3 rt,
       (run env [] (EcsTaskUpdate.handler event)).1
       = (h ++ [(RegisterTaskDefinition, q3); (UpdateService, q)])%list ∧
       env h RegisterTaskDefinition q3 = Ok rt ∧
       q = {[ "cluster" := EcsTaskUpdate.cluster p;
              "service" := EcsTaskUpdate.service p;
              "taskDefinition" :=
                get (fields (taskDefinition rt)) "taskDefinitionArn" ]} ∧
       truthy (EcsTaskUpdate.cluster p) = true ∧
       truthy (EcsTaskUpdate.service p) = true)
  ∧
  (∀ p, EcsTaskContainerUpdate.new_DeployParams event = Ok p →
     (UpdateService, q) ∈ (run env [] (EcsTaskContainerUpdate.handler event)).1 →
     ∃ h q3 rt,
       (run env [] (EcsTaskContainerUpdate.handler event)).1
       = (h ++ [(RegisterTaskDefinition, q3); (UpdateService, q)])%list ∧
       env h RegisterTaskDefinition q3 = Ok rt ∧
       q = {[ "cluster" := EcsTaskContainerUpdate.cluster p;
              "service" := EcsTaskContainerUpdate.service p;
              "taskDefinition" :=
                get (fields (taskDefinition rt)) "taskDefinitionArn" ]} ∧
       truthy (EcsTaskContainerUpdate.cluster p) = true ∧
       truthy (EcsTaskContainerUpdate.service p) = true).
Proof.
  split; intros p Hp.
  - destruct (accepted_service_target event p Hp) as [Hcluster Hservice].
    rewrite (service_handler_run env event p Hp), service_chain_run.
    destruct (env [] DescribeServices _) as [ds|e]; [|intros H; sent_cases H].
    destruct (services ds) as [|first rest]; [intros H; sent_cases H|]. cbn zeta.
    destruct (env _ DescribeTaskDefinition _) as [dt|e];
      [|intros H; sent_cases H].
    destruct (env _ RegisterTaskDefinition _) as [rt|e] eqn:H3;
      [|intros H; sent_cases H].
    cbn [app fst]. intros H. sent_cases H. injection H as ->.
    eexists [_; _], _, rt. by split_and!.
  - pose proof (accepted_family_cluster event p Hp) as Hcluster.
    rewrite (family_handler_run env event p Hp), family_chain_run.
    destruct (env [] DescribeTaskDefinition _) as [dt|e];
      [|intros H; sent_cases H].
    cbn zeta. destruct (env _ RegisterTaskDefinition _) as [rt|e] eqn:H2;
      [|intros H; sent_cases H].
    destruct (truthy (EcsTaskContainerUpdate.service p)) eqn:Hservice;
      [|intros H; sent_cases H].
    cbn [app fst]. intros H. sent_cases H. injection H as ->.
    eexists [_], _, rt. by split_and!.
Qed.

Lemma update_service_targets_registered_witness :
  ∃ h q3 rt,
    (run scenario_env [] (EcsTaskUpdate.handler service_event)).1
    = (h ++ [(RegisterTaskDefinition, q3);
             (UpdateService,
              {[ "cluster" := VStr "default"; "service" := VStr "svc";
                 "taskDefinition" := VStr "arn:task/app:4" ]})])%list ∧
    scenario_env h RegisterTaskDefinition q3 = Ok rt.
Proof.
  assert ((UpdateService,
           ({[ "cluster" := VStr "default"; "service" := VStr "svc";
               "taskDefinition" := VStr "arn:task/app:4" ]} : obj))
          ∈ (run scenario_env [] (EcsTaskUpdate.handler service_event)).1)
    as Hsent.
  { apply list_elem_of_In. do 3 right. left. reflexivity. }
  destruct (proj1 (update_service_targets_registered scenario_env service_event _)
              _ eq_refl Hsent) as (h & q3 & rt & Hrun & Henv & _).
  by exists h, q3, rt.
Defined.

(** X16.  The two handlers agree on what they register and on how they
    update: for an event that both constructors accept, [updateTask] and
    [updateService] of the one send, for the same payload, the same request
    as those of the other. *)
Theorem handlers_agree_on_register_and_update {num : Number} (event : obj) p1 p2
    (result : TaskDefinitionResponse) :
  EcsTaskUpdate.new_DeployParams event = Ok p1 →
  EcsTaskContainerUpdate.new_DeployParams event = Ok p2 →
  EcsTaskUpdate.image p1 = EcsTaskContainerUpdate.image p2 ∧
  EcsTaskUpdate.updateTask p1 result = EcsTaskContainerUpdate.updateTask p2 result ∧
  EcsTaskUpdate.updateService p1 result
  = EcsTaskContainerUpdate.updateService p2 result.
Proof.
  intros Hp1 Hp2.
  apply service_params_inv in Hp1 as (_ & sb1 & st1 & Hsb1 & Hst1 & ->).
  apply family_params_inv in Hp2 as (_ & _ & sb2 & st2 & Hsb2 & Hst2 & ->).
  rewrite Hsb1 in Hsb2. rewrite Hst1 in Hst2.
  injection Hsb2 as <-. injection Hst2 as <-. by split_and!.
Qed.

Lemma handlers_agree_on_register_and_update_witness :
  ∃ p1 p2,
    EcsTaskUpdate.new_DeployParams (<["taskFamily" := VStr "app"]> service_event)
    = Ok p1 ∧
    EcsTaskContainerUpdate.new_DeployParams
      (<["taskFamily" := VStr "app"]> service_event) = Ok p2 ∧
    EcsTaskUpdate.image p1 = EcsTaskContainerUpdate.image p2.
Proof.
  eexists _, _. split; [reflexivity|]. split; [reflexivity|].
  exact (proj1 (handlers_agree_on_register_and_update
                  (<["taskFamily" := VStr "app"]> service_event) _ _
                  {| taskDefinition := {| fields := ∅; containerDefinitions := [] |} |}
                  eq_refl eq_refl)).
Defined.

Lemma rewrite_pointwise_witness :
  ∃ c',
    map (EcsTaskUpdate.containerTransformer (VStr "web") (VStr "repo/app:v2"))
      [ {[ "name" := VStr "web"; "image" := VStr "repo/app:v1" ]};
        {[ "name" := VStr "db"; "image" := VStr "postgres:9" ]};
        {[ "name" := VStr "web"; "cpu" := VNum (safe 10 I) ]} ] !! 2%nat
    = Some c' ∧
    c' !! "image" = Some (VStr "repo/app:v2") ∧
    c' !! "name" = Some (VStr "web") ∧
    c' !! "cpu" = Some (VNum (safe 10 I)).
Proof.
  destruct (proj2 (rewrite_pointwise (VStr "web") (VStr "repo/app:v2")
    [ {[ "name" := VStr "web"; "image" := VStr "repo/app:v1" ]};
      {[ "name" := VStr "db"; "image" := VStr "postgres:9" ]};
      {[ "name" := VStr "web"; "cpu" := VNum (safe 10 I) ]} ])
    2%nat _ eq_refl) as (c' & Hc' & Hkeys & Himage & _).
  exists c'. split_and!.
  - exact Hc'.
  - apply Himage. reflexivity.
  - rewrite Hkeys by done. reflexivity.
  - rewrite Hkeys by done. reflexivity.
Defined.

(** ** End to end, for string fields *)

(** X17.  The service-based handler does what it is for.  For an accepted
    event whose container name, image base and image tag are strings, once
    describe-services lists a service and describe-task-definition answers
    with a task definition, the third request registers that definition's
    family, volumes and role with its container list, same length and
    order, where every container whose name is the container name has
    image [imageBase:imageTag] and every other container is as fetched
    ([named] is the strict comparison of the container's name). *)
Theorem service_flow_registers_new_image {num : Number} (env : environment) (event : obj)
    p (n b t : string) ds first rest dt :
  EcsTaskUpdate.new_DeployParams event = Ok p →
  get event "containerName" = VStr n →
  get event "imageBase" = VStr b →
  or_else (get event "imageTag") (VStr "latest") = VStr t →
  let q1 : obj :=
    {[ "cluster" := EcsTaskUpdate.cluster p;
       "services" := VArr [EcsTaskUpdate.service p] ]} in
  let q2 : obj := {[ "taskDefinition" := get first "taskDefinition" ]} in
  env [] DescribeServices q1 = Ok ds →
  services ds = first :: rest →
  env [(DescribeServices, q1)] DescribeTaskDefinition q2 = Ok dt →
  ∃ h,
    (run env [] (EcsTaskUpdate.handler event)).1
    = (DescribeServices, q1) :: (DescribeTaskDefinition, q2)
      :: (RegisterTaskDefinition,
          {[ "family" := get (fields (taskDefinition dt)) "family";
             "volumes" := get (fields (taskDefinition dt)) "volumes";
             "taskRoleArn" := get (fields (taskDefinition dt)) "taskRoleArn";
             "containerDefinitions" :=
               VArr (VObj <$>
                 map (λ c : obj,
                        if named (VStr n) c
                        then <["image" := VStr (b +:+ ":" +:+ t)]> c
                        else c)
                   (containerDefinitions (taskDefinition dt))) ]}) :: h.
Proof.
  intros Hp Hn Hb Ht q1 q2 H1 Hds H2.
  rewrite (service_handler_run env event p Hp), service_chain_run.
  fold q1. rewrite H1, Hds. cbn zeta. fold q2. rewrite H2.
  apply service_params_inv in Hp as (_ & sb & st & Hsb & Hst & ->).
  cbn [EcsTaskUpdate.containerName EcsTaskUpdate.image].
  rewrite Hb in Hsb. rewrite Ht in Hst. cbn in Hsb, Hst.
  injection Hsb as <-. injection Hst as <-.
  rewrite Hn, image_string, transformer_rewritten.
  destruct (env _ RegisterTaskDefinition _) as [rt|e]; by eexists.
Qed.

Lemma service_flow_registers_new_image_witness :
  ∃ h,
    (run scenario_env [] (EcsTaskUpdate.handler service_event)).1
    = (DescribeServices,
       {[ "cluster" := VStr "default"; "services" := VArr [VStr "svc"] ]})
      :: (DescribeTaskDefinition, {[ "taskDefinition" := VStr "arn:task/app:3" ]})
      :: (RegisterTaskDefinition,
          {[ "family" := VStr "app";
             "volumes" := VArr [];
             "taskRoleArn" := VUndef;
             "containerDefinitions" :=
               VArr [VObj {[ "name" := VStr "db"; "image" := VStr "postgres:9" ]};
                     VObj {[ "name" := VStr "web";
                             "image" := VStr "repo/app:latest" ]}] ]}) :: h.
Proof.
  exact (service_flow_registers_new_image scenario_env service_event
           {| EcsTaskUpdate.cluster := VStr "default";
              EcsTaskUpdate.service := VStr "svc";
              EcsTaskUpdate.taskDefinition := VStr "app:3";
              EcsTaskUpdate.containerName := VStr "web";
              EcsTaskUpdate.imageBase := VStr "repo/app";
              EcsTaskUpdate.imageTag := VStr "latest";
              EcsTaskUpdate.image := VStr "repo/app:latest" |}
           "web" "repo/app" "latest" _ _ _ _
           eq_refl eq_refl eq_refl eq_refl eq_refl eq_refl eq_refl).
Defined.

(** X18.  The task-family handler does what it is for.  For an accepted
    event whose container name, image base and image tag are strings, once
    describe-task-definition answers with a task definition, the second
    request registers that definition's family, volumes and role with its
    container list, same length and order, where every container whose name
    is the container name has image [imageBase:imageTag] and every other
    container is as fetched. *)
Theorem family_flow_registers_new_image {num : Number} (env : environment) (event : obj)
    p (n b t : string) dt :
  EcsTaskContainerUpdate.new_DeployParams event = Ok p →
  get event "containerName" = VStr n →
  get event "imageBase" = VStr b →
  or_else (get event "imageTag") (VStr "latest") = VStr t →
  let q1 : obj := {[ "taskDefinition" := EcsTaskContainerUpdate.taskFamily p ]} in
  env [] DescribeTaskDefinition q1 = Ok dt →
  ∃ h,
    (run env [] (EcsTaskContainerUpdate.handler event)).1
    = (DescribeTaskDefinition, q1)
      :: (RegisterTaskDefinition,
          {[ "family" := get (fields (taskDefinition dt)) "family";
             "volumes" := get (fields (taskDefinition dt)) "volumes";
             "taskRoleArn" := get (fields (taskDefinition dt)) "taskRoleArn";
             "containerDefinitions" :=
               VArr (VObj <$>
                 map (λ c : obj,
                        if named (VStr n) c
                        then <["image" := VStr (b +:+ ":" +:+ t)]> c
                        else c)
                   (containerDefinitions (taskDefinition dt))) ]}) :: h.
Proof.
  intros Hp Hn Hb Ht q1 H1.
  rewrite (family_handler_run env event p Hp), family_chain_run.
  fold q1. rewrite H1. cbn zeta.
  apply family_params_inv in Hp as (_ & _ & sb & st & Hsb & Hst & ->).
  cbn [EcsTaskContainerUpdate.containerName EcsTaskContainerUpdate.image
       EcsTaskContainerUpdate.service].
  rewrite Hb in Hsb. rewrite Ht in Hst. cbn in Hsb, Hst.
  injection Hsb as <-. injection Hst as <-.
  rewrite Hn, image_string.
  change (@EcsTaskContainerUpdate.containerTransformer num)
    with (@EcsTaskUpdate.containerTransformer num).
  rewrite transformer_rewritten.
  destruct (env _ RegisterTaskDefinition _) as [rt|e]; [|by eexists].
  destruct (truthy (get event "service")); by eexists.
Qed.

Lemma family_flow_registers_new_image_witness :
  ∃ h,
    (run scenario_env [] (EcsTaskContainerUpdate.handler family_event)).1
    = (DescribeTaskDefinition, {[ "taskDefinition" := VStr "app" ]})
      :: (RegisterTaskDefinition,
          {[ "family" := VStr "app";
             "volumes" := VArr [];
             "taskRoleArn" := VUndef;
             "containerDefinitions" :=
               VArr [VObj {[ "name" := VStr "db"; "image" := VStr "postgres:9" ]};
                     VObj {[ "name" := VStr "web";
                             "image" := VStr "repo/app:v2" ]}] ]}) :: h.
Proof.
  exact (family_flow_registers_new_image scenario_env family_event
           {| EcsTaskContainerUpdate.imageBase := VStr "repo/app";
              EcsTaskContainerUpdate.imageTag := VStr "v2";
              EcsTaskContainerUpdate.image := VStr "repo/app:v2";
              EcsTaskContainerUpdate.taskFamily := VStr "app";
              EcsTaskContainerUpdate.containerName := VStr "web";
              EcsTaskContainerUpdate.cluster := VStr "default";
              EcsTaskContainerUpdate.service := VUndef |}
           "web" "repo/app" "v2" _
           eq_refl eq_refl eq_refl eq_refl eq_refl).
Defined.
